(** * AirSimDroneEnv: the drone environment adapter of [envs/airsim_drone_env_0.py]

    A shallow embedding of the gym environment [AirSimDroneEnv]: the state
    query [_get_state], the reward function [calculate_reward], [step],
    [reset] and [close], over an abstract AirSim client.

    Modelling choices.
    - Python floats (numpy float32 / float64) are idealised as real numbers
      [R]; rounding, infinities and NaN are not modelled.  Comparisons are
      the decidable order of [R].
    - A numpy array of shape (n,) is a [list R]; one of shape (n, m) is the
      list of its rows, all of length m (an array without rows carries no
      column count in this representation).
    - The simulator is an opaque service: the class [airsim.MultirotorClient]
      lists the calls the adapter makes; every call may change the simulator.
      A failure of the simulator itself (a lost connection) is not modelled.
    - The module [config] is not part of the source file: its constants are
      the fields of the record [Config].
    - A Python exception is the result [Raise]; attribute updates made before
      an exception survive it, so a computation returns its result together
      with the environment it leaves behind.
    - [print] appends a message to [stdout]; the text of a message is kept
      only as far as it identifies the statement that printed it. *)

From Stdlib Require Import String.
From Stdlib Require Import Reals Lra Lia ZArith List Bool.
Import ListNotations.

Open Scope R_scope.

(* ================================================================== *)
(** ** Results of Python computations *)

Inductive exn : Set :=
| ValueError      (* reshape, broadcasting or unpacking of the wrong size *)
| AttributeError  (* an attribute read before it was ever assigned *)
| IndexError.     (* index 0 of an array without rows *)

Inductive result (A : Type) : Type :=
| Ok (a : A)
| Raise (e : exn).

Arguments Ok {A} a.
Arguments Raise {A} e.

(* ================================================================== *)
(** ** The numpy operations the adapter uses *)

Module np.

(** [a.reshape(-1, 3)] of a flat array: rows of three consecutive
    entries; numpy raises ValueError when the size is no multiple of 3. *)
Fixpoint reshape_3 (a : list R) : result (list (list R)) :=
  match a with
  | [] => Ok []
  | x :: y :: z :: rest =>
      match reshape_3 rest with
      | Ok rows => Ok ([x; y; z] :: rows)
      | Raise e => Raise e
      end
  | _ => Raise ValueError
  end.

(** [np.zeros((n, m))]. *)
Definition zeros (n m : nat) : list (list R) := repeat (repeat 0 m) n.

(** [np.vstack((a, b))] and [np.concatenate((a, b), axis=0)] of two arrays
    with the same number of columns: the rows of [a], then those of [b]. *)
Definition vstack (a b : list (list R)) : list (list R) := a ++ b.
Definition concatenate (a b : list (list R)) : list (list R) := a ++ b.

(** [a[:k]]: the first [k] rows (all of them when there are fewer). *)
Definition take (k : nat) (a : list (list R)) : list (list R) := firstn k a.

(** [a[0]]. *)
Definition item0 (a : list (list R)) : result (list R) :=
  match a with
  | [] => Raise IndexError
  | r :: _ => Ok r
  end.

Fixpoint zip_minus (a b : list R) : list R :=
  match a, b with
  | x :: a', y :: b' => (x - y) :: zip_minus a' b'
  | _, _ => []
  end.

(** [a - b] of two arrays of shape (n,) and (m,): elementwise when
    [n = m], a size-one operand is stretched, anything else raises. *)
Definition subtract (a b : list R) : result (list R) :=
  if Nat.eqb (length a) (length b) then Ok (zip_minus a b)
  else if Nat.eqb (length a) 1 then Ok (map (fun y => hd 0 a - y) b)
  else if Nat.eqb (length b) 1 then Ok (map (fun x => x - hd 0 b) a)
  else Raise ValueError.

(** [a - b] of an array of shape (k, m) and one of shape (n,): [b] is
    subtracted from every row. *)
Fixpoint subtract_rows (a : list (list R)) (b : list R)
  : result (list (list R)) :=
  match a with
  | [] => Ok []
  | r :: a' =>
      match subtract r b with
      | Ok d =>
          match subtract_rows a' b with
          | Ok ds => Ok (d :: ds)
          | Raise e => Raise e
          end
      | Raise e => Raise e
      end
  end.

Fixpoint sum_squares (a : list R) : R :=
  match a with
  | [] => 0
  | x :: a' => x * x + sum_squares a'
  end.

Module linalg.
(** [np.linalg.norm(a)] of a one-dimensional array: the 2-norm. *)
Definition norm (a : list R) : R := sqrt (sum_squares a).

(** [np.linalg.norm(a)] of a two-dimensional array: with no [ord] and no
    [axis] it is the Frobenius norm, over all entries. *)
Definition norm_2d (a : list (list R)) : R := sqrt (sum_squares (concat a)).
End linalg.

(** [x ** 1.5] for a float [x >= 0]. *)
Definition pow_1_5 (x : R) : R := x * sqrt x.

End np.

(* ================================================================== *)
(** ** The AirSim client *)

Module airsim.

Record Vector3r : Set := { x_val : R; y_val : R; z_val : R }.
Record KinematicsState : Set := { position : Vector3r }.
Record MultirotorState : Set := { kinematics_estimated : KinematicsState }.
Record LidarData : Set := { point_cloud : list R }.
Record CollisionInfo : Set := { has_collided : bool }.

(** The calls of [airsim.MultirotorClient] made by the adapter, on a
    simulator state [S].  The asynchronous moves are joined at once, so
    they are the simulator after the move.  A query answers and may leave
    the simulator changed. *)
Class MultirotorClient (S : Type) : Type := {
  confirmConnection : S -> S;
  enableApiControl : bool -> S -> S;
  armDisarm : bool -> S -> S;
  reset : S -> S;
  moveToPositionAsync : R -> R -> R -> R -> S -> S;
  takeoffAsync : S -> S;
  moveByVelocityAsync : R -> R -> R -> R -> S -> S;
  getMultirotorState : S -> MultirotorState * S;
  getLidarData : string -> S -> LidarData * S;
  simGetCollisionInfo : S -> CollisionInfo * S
}.

End airsim.

(* ================================================================== *)
(** ** Configuration and messages *)

(** The constants of the module [config] that the adapter reads. *)
Record Config : Type := {
  TARGET_POSITION : R * R * R;
  MAX_STEPS : Z;
  SAFE_BOUND : R;
  REWARD_COLLISION : R;
  REWARD_MAX_STEP_EXCEED : R;
  REWARD_GOAL : R;
  REWARD_OUT_OF_BOUNDS : R;
  REWARD_STEP : R;
  REWARD_DISTANCE_GAIN : R;
  REWARD_DISTANCE_LOSS : R
}.

(** One constructor for each [print] of the source. *)
Inductive LogMsg : Type :=
| InfoResetDone (state : list (list R))   (* reset, line 58 *)
| InfoClosed                               (* close, line 66 *)
| DebugAction (action : list R)            (* step, line 70 *)
| DebugCollision                           (* calculate_reward, line 97 *)
| DebugMaxStep                             (* line 103 *)
| DebugGoal                                (* line 109 *)
| DebugOutOfBounds                         (* line 118 *)
| DebugApproach (reward : R)               (* line 129 *)
| DebugAway (reward : R)                   (* line 132 *)
| DebugLidarCount (n : nat).               (* _get_state, line 148 *)

(** The array [(x, y, z)] of shape (3,). *)
Definition array3 (v : R * R * R) : list R :=
  let '(x, y, z) := v in [x; y; z].

(* ================================================================== *)
(** ** The environment *)

(** The attributes of [self] the methods read or write, and the standard
    output.  [step_in_episode] is first assigned by [reset]: it is [None]
    while the attribute does not exist.  [lidar_data_log] is assigned by
    [reset] and never read. *)
Record AirSimDroneEnv (S : Type) : Type := {
  client : S;
  lidar_name : string;
  target_pos : R * R * R;
  max_steps : Z;
  step_count : Z;
  safe_bound : R;
  step_in_episode : option Z;
  lidar_data_log : option (list (list R));
  stdout : list LogMsg
}.

Arguments client {S} _.
Arguments lidar_name {S} _.
Arguments target_pos {S} _.
Arguments max_steps {S} _.
Arguments step_count {S} _.
Arguments safe_bound {S} _.
Arguments step_in_episode {S} _.
Arguments lidar_data_log {S} _.
Arguments stdout {S} _.

Definition with_client {S} (c : S) (self : AirSimDroneEnv S) : AirSimDroneEnv S :=
  {| client := c; lidar_name := lidar_name self; target_pos := target_pos self;
     max_steps := max_steps self; step_count := step_count self;
     safe_bound := safe_bound self; step_in_episode := step_in_episode self;
     lidar_data_log := lidar_data_log self; stdout := stdout self |}.

Definition with_step_count {S} (n : Z) (self : AirSimDroneEnv S) : AirSimDroneEnv S :=
  {| client := client self; lidar_name := lidar_name self; target_pos := target_pos self;
     max_steps := max_steps self; step_count := n;
     safe_bound := safe_bound self; step_in_episode := step_in_episode self;
     lidar_data_log := lidar_data_log self; stdout := stdout self |}.

Definition with_step_in_episode {S} (n : Z) (self : AirSimDroneEnv S) : AirSimDroneEnv S :=
  {| client := client self; lidar_name := lidar_name self; target_pos := target_pos self;
     max_steps := max_steps self; step_count := step_count self;
     safe_bound := safe_bound self; step_in_episode := Some n;
     lidar_data_log := lidar_data_log self; stdout := stdout self |}.

Definition with_lidar_data_log {S} (l : list (list R)) (self : AirSimDroneEnv S)
  : AirSimDroneEnv S :=
  {| client := client self; lidar_name := lidar_name self; target_pos := target_pos self;
     max_steps := max_steps self; step_count := step_count self;
     safe_bound := safe_bound self; step_in_episode := step_in_episode self;
     lidar_data_log := Some l; stdout := stdout self |}.

Definition with_stdout {S} (out : list LogMsg) (self : AirSimDroneEnv S) : AirSimDroneEnv S :=
  {| client := client self; lidar_name := lidar_name self; target_pos := target_pos self;
     max_steps := max_steps self; step_count := step_count self;
     safe_bound := safe_bound self; step_in_episode := step_in_episode self;
     lidar_data_log := lidar_data_log self; stdout := out |}.

(** A method body: from the environment to a result and the environment
    it leaves. *)
Definition M (S A : Type) : Type := AirSimDroneEnv S -> result A * AirSimDroneEnv S.

Definition ret {S A} (a : A) : M S A := fun self => (Ok a, self).

Definition bind {S A B} (m : M S A) (k : A -> M S B) : M S B :=
  fun self =>
    match m self with
    | (Ok a, self') => k a self'
    | (Raise e, self') => (Raise e, self')
    end.

Declare Scope py_scope.
Delimit Scope py_scope with py.
Notation "x <- m ;; k" := (bind m (fun x => k))
  (at level 61, m at next level, right associativity) : py_scope.
Notation "m ;; k" := (bind m (fun _ => k))
  (at level 61, right associativity) : py_scope.
Open Scope py_scope.

(** An array operation that may raise. *)
Definition lift {S A} (r : result A) : M S A := fun self => (r, self).

(** [self.client.f(...)] for a command and for a query. *)
Definition call {S} (f : S -> S) : M S unit :=
  fun self => (Ok tt, with_client (f (client self)) self).

Definition query {S A} (f : S -> A * S) : M S A :=
  fun self => let '(a, c) := f (client self) in (Ok a, with_client c self).

(** Reading an attribute of [self]. *)
Definition gets {S A} (f : AirSimDroneEnv S -> A) : M S A :=
  fun self => (Ok (f self), self).

(** Reading [self.step_in_episode]. *)
Definition get_step_in_episode {S} : M S Z :=
  fun self =>
    match step_in_episode self with
    | Some n => (Ok n, self)
    | None => (Raise AttributeError, self)
    end.

Definition modify {S} (f : AirSimDroneEnv S -> AirSimDroneEnv S) : M S unit :=
  fun self => (Ok tt, f self).

Definition print {S} (msg : LogMsg) : M S unit :=
  modify (fun self => with_stdout (stdout self ++ [msg]) self).

(** [vx, vy, vz, yaw_rate = map(float, action)]. *)
Definition unpack4 {S} (action : list R) : M S (R * R * R * R) :=
  match action with
  | [vx; vy; vz; yaw_rate] => ret (vx, vy, vz, yaw_rate)
  | _ => lift (Raise ValueError)
  end.

Definition Rltb (x y : R) : bool := if Rlt_dec x y then true else false.

Section Methods.

Context {S : Type} `{airsim.MultirotorClient S}.
Variable config : Config.

(** [__init__], on the simulator [c] the new client connects to.  The
    observation and action spaces are not modelled. *)
Definition __init__ (c : S) : AirSimDroneEnv S :=
  let c := airsim.confirmConnection c in
  let c := airsim.enableApiControl true c in
  let c := airsim.armDisarm true c in
  {| client := c;
     lidar_name := "LidarSensor1";
     target_pos := TARGET_POSITION config;
     max_steps := MAX_STEPS config;
     step_count := 0%Z;
     safe_bound := SAFE_BOUND config;
     step_in_episode := None;
     lidar_data_log := None;
     stdout := [] |}.

(** [_get_state]: the drone position and 80 LiDAR points. *)
Definition _get_state : M S (list (list R)) :=
  multirotor_state <- query airsim.getMultirotorState ;;
  let pos := airsim.position (airsim.kinematics_estimated multirotor_state) in
  let drone_position := [airsim.x_val pos; airsim.y_val pos; airsim.z_val pos] in
  name <- gets lidar_name ;;
  lidar_data <- query (airsim.getLidarData name) ;;
  lidar_points <- lift (np.reshape_3 (airsim.point_cloud lidar_data)) ;;
  print (DebugLidarCount (length lidar_points)) ;;
  let num_points := 80%nat in
  let lidar_points :=
    if (length lidar_points <? num_points)%nat then
      let padding := np.zeros (num_points - length lidar_points) 3 in
      np.vstack lidar_points padding
    else if (num_points <? length lidar_points)%nat then
      np.take num_points lidar_points
    else lidar_points in
  ret (np.concatenate [drone_position] lidar_points).

(** [calculate_reward]. *)
Definition calculate_reward (prev_distance current_distance : R)
    (new_state : list (list R)) : M S (R * bool) :=
  collision_info <- query airsim.simGetCollisionInfo ;;
  if airsim.has_collided collision_info then
    print DebugCollision ;;
    modify (with_step_in_episode 0) ;;
    ret (REWARD_COLLISION config, true)
  else
  n <- get_step_in_episode ;;
  limit <- gets max_steps ;;
  if (limit <=? n)%Z then
    print DebugMaxStep ;;
    modify (with_step_in_episode 0) ;;
    ret (REWARD_MAX_STEP_EXCEED config, true)
  else
  if Rltb current_distance 1 then
    print DebugGoal ;;
    modify (with_step_in_episode 0) ;;
    ret (REWARD_GOAL config, true)
  else
  let center := [0; 0; -2] in
  drone_position <- lift (np.item0 new_state) ;;
  offset <- lift (np.subtract drone_position center) ;;
  let distance_from_center := np.linalg.norm offset in
  bound <- gets safe_bound ;;
  if Rltb bound distance_from_center then
    print DebugOutOfBounds ;;
    modify (with_step_in_episode 0) ;;
    ret (REWARD_OUT_OF_BOUNDS config, true)
  else
  let reward := REWARD_STEP config in
  let distance_change := prev_distance - current_distance in
  reward <-
    (if Rltb 0 distance_change then
       let reward := reward + REWARD_DISTANCE_GAIN config * np.pow_1_5 distance_change in
       print (DebugApproach reward) ;; ret reward
     else
       let reward := reward + REWARD_DISTANCE_LOSS config * np.pow_1_5 (Rabs distance_change) in
       print (DebugAway reward) ;; ret reward) ;;
  n <- get_step_in_episode ;;
  modify (with_step_in_episode (n + 1)) ;;
  ret (reward, false).

(** The expression [np.linalg.norm(state[:3] - self.target_pos)] of
    lines 76 and 77 of [step]. *)
Definition distance_to_target (state : list (list R)) : M S R :=
  target <- gets target_pos ;;
  offsets <- lift (np.subtract_rows (np.take 3 state) (array3 target)) ;;
  ret (np.linalg.norm_2d offsets).

(** [step]; the auxiliary mapping it returns is empty. *)
Definition step (action : list R)
  : M S (list (list R) * R * bool * unit) :=
  print (DebugAction action) ;;
  state <- _get_state ;;
  v <- unpack4 action ;;
  let '(vx, vy, vz, yaw_rate) := v in
  call (airsim.moveByVelocityAsync vx vy vz 0.5) ;;
  new_state <- _get_state ;;
  prev_distance <- distance_to_target state ;;
  current_distance <- distance_to_target new_state ;;
  rd <- calculate_reward prev_distance current_distance new_state ;;
  let '(reward, done) := rd in
  n <- gets step_count ;;
  modify (with_step_count (n + 1)) ;;
  ret (new_state, reward, done, tt).

(** [reset]. *)
Definition reset : M S (list (list R)) :=
  call airsim.reset ;;
  call (airsim.enableApiControl true) ;;
  call (airsim.armDisarm true) ;;
  call (airsim.moveToPositionAsync 0 0 (-1) 1) ;;
  call airsim.takeoffAsync ;;
  modify (with_step_count 0) ;;
  modify (with_lidar_data_log []) ;;
  modify (with_step_in_episode 0) ;;
  state <- _get_state ;;
  print (InfoResetDone state) ;;
  ret state.

(** [close]. *)
Definition close : M S unit :=
  call (airsim.armDisarm false) ;;
  call (airsim.enableApiControl false) ;;
  call airsim.reset ;;
  print InfoClosed.

End Methods.

(* ================================================================== *)
(** ** Notions the statements use *)

(** The row [(x, y, z)] of a point. *)
Definition row_of (p : airsim.Vector3r) : list R :=
  [airsim.x_val p; airsim.y_val p; airsim.z_val p].

(** The flat buffer in which the LiDAR delivers a list of points: x, y, z
    of each point in turn. *)
Definition flatten (pts : list airsim.Vector3r) : list R := flat_map row_of pts.

(** The Euclidean distance between two points given by their coordinates. *)
Definition euclidean (p q : R * R * R) : R :=
  let '(px, py, pz) := p in
  let '(qx, qy, qz) := q in
  sqrt ((px - qx) * (px - qx) + (py - qy) * (py - qy) + (pz - qz) * (pz - qz)).

(** The value lines 150-156 of [_get_state] leave in [lidar_points] when
    they find [rows] there. *)
Definition lidar_80 (rows : list (list R)) : list (list R) :=
  if (length rows <? 80)%nat then rows ++ repeat [0; 0; 0] (80 - length rows)
  else if (80 <? length rows)%nat then firstn 80 rows
  else rows.

(** The environment a terminal branch of [calculate_reward] leaves: the
    simulator as the collision query left it ([c1]), the message of the
    branch printed, the per-episode counter at zero. *)
Definition terminal_env {S} (self : AirSimDroneEnv S) (c1 : S) (msg : LogMsg)
  : AirSimDroneEnv S :=
  with_step_in_episode 0 (with_stdout (stdout self ++ [msg]) (with_client c1 self)).

(** The environment the last branch leaves: the message printed, the
    per-episode counter one above [n]. *)
Definition continuing_env {S} (self : AirSimDroneEnv S) (c1 : S) (msg : LogMsg) (n : Z)
  : AirSimDroneEnv S :=
  with_step_in_episode (n + 1) (with_stdout (stdout self ++ [msg]) (with_client c1 self)).

(* ================================================================== *)
(** ** A simulator stub

    A drone in free space with a frozen LiDAR frame and collision flag: a
    velocity command moves the drone along a straight line, the queries
    answer from the stub and leave it unchanged. *)

Record FakeSim : Type := {
  fake_position : airsim.Vector3r;
  fake_cloud : list R;
  fake_collided : bool
}.

Definition fake_move (dx dy dz : R) (s : FakeSim) : FakeSim :=
  let p := fake_position s in
  {| fake_position :=
       {| airsim.x_val := airsim.x_val p + dx;
          airsim.y_val := airsim.y_val p + dy;
          airsim.z_val := airsim.z_val p + dz |};
     fake_cloud := fake_cloud s;
     fake_collided := fake_collided s |}.

Definition fake_place (x y z : R) (s : FakeSim) : FakeSim :=
  {| fake_position := {| airsim.x_val := x; airsim.y_val := y; airsim.z_val := z |};
     fake_cloud := fake_cloud s;
     fake_collided := fake_collided s |}.

#[export] Instance FakeClient : airsim.MultirotorClient FakeSim := {
  airsim.confirmConnection s := s;
  airsim.enableApiControl _ s := s;
  airsim.armDisarm _ s := s;
  airsim.reset s := fake_place 0 0 0 s;
  airsim.moveToPositionAsync x y z _ s := fake_place x y z s;
  airsim.takeoffAsync s := s;
  airsim.moveByVelocityAsync vx vy vz duration s :=
    fake_move (vx * duration) (vy * duration) (vz * duration) s;
  airsim.getMultirotorState s :=
    ({| airsim.kinematics_estimated := {| airsim.position := fake_position s |} |}, s);
  airsim.getLidarData _ s := ({| airsim.point_cloud := fake_cloud s |}, s);
  airsim.simGetCollisionInfo s := ({| airsim.has_collided := fake_collided s |}, s)
}.

(** The stub with the drone at [(x, y, z)] and the LiDAR frame [pts]. *)
Definition fake_sim (x y z : R) (pts : list airsim.Vector3r) (collided : bool) : FakeSim :=
  {| fake_position := {| airsim.x_val := x; airsim.y_val := y; airsim.z_val := z |};
     fake_cloud := flatten pts;
     fake_collided := collided |}.

(** The point cloud of [n] returns, all at the point [(x, y, z)]. *)
Definition cloud_of (n : nat) (x y z : R) : list airsim.Vector3r :=
  repeat {| airsim.x_val := x; airsim.y_val := y; airsim.z_val := z |} n.

(** A stub in free flight and one that has collided, both at the origin
    and without LiDAR returns; their answers to the collision query. *)
Definition flying : FakeSim := fake_sim 0 0 0 [] false.
Definition crashed : FakeSim := fake_sim 0 0 0 [] true.
Definition clear_info : airsim.CollisionInfo := {| airsim.has_collided := false |}.
Definition collided_info : airsim.CollisionInfo := {| airsim.has_collided := true |}.

(** A configuration for the examples: the target at the origin. *)
Definition example_config : Config :=
  {| TARGET_POSITION := (0, 0, 0);
     MAX_STEPS := 100;
     SAFE_BOUND := 10;
     REWARD_COLLISION := -100;
     REWARD_MAX_STEP_EXCEED := -50;
     REWARD_GOAL := 100;
     REWARD_OUT_OF_BOUNDS := -75;
     REWARD_STEP := -1;
     REWARD_DISTANCE_GAIN := 2;
     REWARD_DISTANCE_LOSS := -3 |}.

(** A freshly constructed environment on the stub, and one in the middle
    of an episode, [n] steps in. *)
Definition fresh_env (sim : FakeSim) : AirSimDroneEnv FakeSim :=
  __init__ example_config sim.

Definition running_env (sim : FakeSim) (n : Z) : AirSimDroneEnv FakeSim :=
  with_step_in_episode n (fresh_env sim).

(** The stub hovering on the target of [example_config] with one LiDAR
    return at (3, 4, 0), and the observation the state query makes of it. *)
Definition hovering_at_target : FakeSim :=
  fake_sim 0 0 0 (cloud_of 1 3 4 0) false.

Definition observation_at_target : list (list R) :=
  [0; 0; 0] :: [3; 4; 0] :: repeat [0; 0; 0] 79.

(** The observation of a drone at the origin without LiDAR returns. *)
Definition empty_observation : list (list R) := repeat [0; 0; 0] 81.

(* ================================================================== *)
(** ** Episodes *)

(** The two counters as every method leaves them: the per-episode counter
    is assigned, not negative and not above the lifetime counter. *)
Definition counters_ok {S} (self : AirSimDroneEnv S) : Prop :=
  exists n, step_in_episode self = Some n /\ (0 <= n <= step_count self)%Z.

(** [continues config self k self']: [k] calls of [step] in a row, with any
    actions, each of which returns without ending the episode, lead from
    [self] to [self']. *)
Inductive continues {S} `{airsim.MultirotorClient S} (config : Config)
  : AirSimDroneEnv S -> nat -> AirSimDroneEnv S -> Prop :=
| continues_nil (self : AirSimDroneEnv S) : continues config self 0 self
| continues_step (self : AirSimDroneEnv S) action obs reward self' k self'' :
    step config action self = (Ok (obs, reward, false, tt), self') ->
    continues config self' k self'' ->
    continues config self (1 + k) self''.

(** [keeps_counters self self']: both counters and the step limit are in
    [self'] what they are in [self]. *)
Definition keeps_counters {S} (self self' : AirSimDroneEnv S) : Prop :=
  step_count self' = step_count self /\
  step_in_episode self' = step_in_episode self /\
  max_steps self' = max_steps self.

(** Two environments that differ at most in what has been printed. *)
Definition same_but_stdout {S} (a b : AirSimDroneEnv S) : Prop :=
  client a = client b /\ lidar_name a = lidar_name b /\
  target_pos a = target_pos b /\ max_steps a = max_steps b /\
  step_count a = step_count b /\ safe_bound a = safe_bound b /\
  step_in_episode a = step_in_episode b /\ lidar_data_log a = lidar_data_log b.

(** [related RR m1 m2]: run from environments that differ at most in what
    has been printed, [m1] and [m2] both return, with results related by
    [RR], or both raise the same exception, and they leave environments
    that again differ at most in what has been printed. *)
Definition related {S A B} (RR : A -> B -> Prop) (m1 : M S A) (m2 : M S B) : Prop :=
  forall a b, same_but_stdout a b ->
    match m1 a, m2 b with
    | (Ok x, a'), (Ok y, b') => RR x y /\ same_but_stdout a' b'
    | (Raise e1, a'), (Raise e2, b') => e1 = e2 /\ same_but_stdout a' b'
    | _, _ => False
    end.

(** The stub as AirSim answers when the LiDAR has no return: a buffer
    holding the single number 0. *)
Definition no_return : FakeSim :=
  {| fake_position := {| airsim.x_val := 0; airsim.y_val := 0; airsim.z_val := 0 |};
     fake_cloud := [0];
     fake_collided := false |}.

(* ================================================================== *)
(** ** Running the monad *)

Section Run.

Context {S : Type}.

Lemma bind_ok {A B} (m : M S A) (k : A -> M S B) self a self' :
  m self = (Ok a, self') -> bind m k self = k a self'.
Proof. intros E. unfold bind. rewrite E. reflexivity. Qed.

Lemma bind_raise {A B} (m : M S A) (k : A -> M S B) self e self' :
  m self = (Raise e, self') -> bind m k self = (Raise e, self').
Proof. intros E. unfold bind. rewrite E. reflexivity. Qed.

Lemma bind_inv {A B} (m : M S A) (k : A -> M S B) self b self'' :
  bind m k self = (Ok b, self'') ->
  exists a self', m self = (Ok a, self') /\ k a self' = (Ok b, self'').
Proof.
  unfold bind. destruct (m self) as [[a|e] self']; [|discriminate].
  intros E. now exists a, self'.
Qed.

End Run.

(** ** The arrays *)

Lemma reshape_3_flatten pts : np.reshape_3 (flatten pts) = Ok (map row_of pts).
Proof.
  induction pts as [|p pts IH]; [reflexivity|].
  cbn [flatten flat_map row_of app np.reshape_3 map].
  fold (flatten pts). rewrite IH. reflexivity.
Qed.

Lemma reshape_3_rows a rows :
  np.reshape_3 a = Ok rows ->
  Forall (fun row => length row = 3%nat) rows /\ concat rows = a.
Proof.
  revert rows.
  induction a as [a IH] using (well_founded_induction
    (Wf_nat.well_founded_ltof _ (@length R))).
  destruct a as [|x [|y [|z rest]]]; cbn [np.reshape_3]; intros rows E;
    try discriminate.
  - injection E as <-. split; [constructor | reflexivity].
  - destruct (np.reshape_3 rest) as [rows'|] eqn:E'; [|discriminate].
    injection E as <-.
    destruct (IH rest) with (rows := rows') as [F C];
      [unfold ltof; cbn; lia | exact E' |].
    split; [constructor; [reflexivity | exact F] | cbn; rewrite C; reflexivity].
Qed.

(* ================================================================== *)
(** ** The state query *)

Section StateQuery.

Context {S : Type} `{airsim.MultirotorClient S}.

(** What [_get_state] does with the two answers of the simulator, when the
    LiDAR buffer reshapes to [rows]. *)
Lemma _get_state_run (self : AirSimDroneEnv S) ms c1 ld c2 rows :
  airsim.getMultirotorState (client self) = (ms, c1) ->
  airsim.getLidarData (lidar_name self) c1 = (ld, c2) ->
  np.reshape_3 (airsim.point_cloud ld) = Ok rows ->
  _get_state self =
    (Ok (row_of (airsim.position (airsim.kinematics_estimated ms)) ::
         lidar_80 rows),
     with_stdout (stdout self ++ [DebugLidarCount (length rows)]) (with_client c2 self)).
Proof.
  intros Hms Hld Hre.
  unfold _get_state, bind, query, gets, lift, print, modify, ret.
  rewrite Hms. cbn [client lidar_name with_client]. rewrite Hld, Hre.
  reflexivity.
Qed.

End StateQuery.

Section Observation.

Context {S : Type} `{airsim.MultirotorClient S}.

Lemma lidar_80_length (rows : list (list R)) : length (lidar_80 rows) = 80%nat.
Proof.
  unfold lidar_80.
  destruct (Nat.ltb_spec (length rows) 80) as [Hlt|Hge].
  - rewrite length_app, repeat_length. lia.
  - destruct (Nat.ltb_spec 80 (length rows)) as [Hgt|Hle].
    + rewrite length_firstn. lia.
    + lia.
Qed.

Lemma lidar_80_columns (rows : list (list R)) :
  Forall (fun row => length row = 3%nat) rows ->
  Forall (fun row => length row = 3%nat) (lidar_80 rows).
Proof.
  intros F. unfold lidar_80.
  destruct (Nat.ltb_spec (length rows) 80) as [Hlt|Hge].
  - apply Forall_app. split; [exact F|].
    apply Forall_forall. intros row Hin. apply repeat_spec in Hin. now subst.
  - destruct (Nat.ltb_spec 80 (length rows)) as [Hgt|Hle]; [|exact F].
    rewrite <- (firstn_skipn 80 rows) in F. apply Forall_app in F. tauto.
Qed.

Lemma lidar_80_nth (rows : list (list R)) (i : nat) :
  (i < 80)%nat -> nth_error (lidar_80 rows) i = Some (nth i rows [0; 0; 0]).
Proof.
  intros Hi. unfold lidar_80.
  destruct (Nat.ltb_spec (length rows) 80) as [Hlt|Hge].
  - destruct (Nat.lt_ge_cases i (length rows)) as [Hin|Hout].
    + rewrite nth_error_app1 by exact Hin. now apply nth_error_nth'.
    + rewrite nth_error_app2 by exact Hout.
      rewrite nth_error_repeat by lia.
      now rewrite nth_overflow.
  - destruct (Nat.ltb_spec 80 (length rows)) as [Hgt|Hle].
    + rewrite nth_error_firstn.
      destruct (Nat.ltb_spec i 80); [|lia].
      apply nth_error_nth'. lia.
    + apply nth_error_nth'. lia.
Qed.

Lemma map_row_of_columns pts :
  Forall (fun row => length row = 3%nat) (map row_of pts).
Proof. apply Forall_forall. intros row Hin. apply in_map_iff in Hin. now destruct Hin as (p & <- & _). Qed.

(** A buffer that is no whole number of points makes the state query
    raise, after both queries and before anything is printed. *)
Lemma _get_state_ragged_buffer (self : AirSimDroneEnv S) ms c1 ld c2 e :
  airsim.getMultirotorState (client self) = (ms, c1) ->
  airsim.getLidarData (lidar_name self) c1 = (ld, c2) ->
  np.reshape_3 (airsim.point_cloud ld) = Raise e ->
  _get_state self = (Raise e, with_client c2 self).
Proof.
  intros Hms Hld Hre.
  unfold _get_state, bind, query, gets, lift, print, modify, ret.
  rewrite Hms. cbn [client lidar_name with_client]. rewrite Hld, Hre.
  reflexivity.
Qed.

(** Every observation the state query returns has 81 rows of 3 columns. *)
Lemma _get_state_returns_81_by_3 (self : AirSimDroneEnv S) obs self' :
  _get_state self = (Ok obs, self') ->
  length obs = 81%nat /\ Forall (fun row => length row = 3%nat) obs.
Proof.
  destruct (airsim.getMultirotorState (client self)) as [ms c1] eqn:Hms.
  destruct (airsim.getLidarData (lidar_name self) c1) as [ld c2] eqn:Hld.
  destruct (np.reshape_3 (airsim.point_cloud ld)) as [rows|e] eqn:Hre.
  - rewrite (_get_state_run self ms c1 ld c2 rows Hms Hld Hre).
    intros E. injection E as <- _. split.
    + cbn [length]. now rewrite lidar_80_length.
    + constructor; [reflexivity|].
      apply lidar_80_columns. now apply reshape_3_rows in Hre.
  - rewrite (_get_state_ragged_buffer self ms c1 ld c2 e Hms Hld Hre). discriminate.
Qed.

(** C2.  Whatever the drone position and the point cloud the simulator
    answers with, the state query returns an observation of 81 rows and 3
    columns: row 0 is the drone position, and row [1 + i], for [i < 80], is
    LiDAR point [i] (the zero row where the cloud has no such point). *)
Theorem get_state_shape (self : AirSimDroneEnv S) ms c1 ld c2
    (pts : list airsim.Vector3r) :
  airsim.getMultirotorState (client self) = (ms, c1) ->
  airsim.getLidarData (lidar_name self) c1 = (ld, c2) ->
  airsim.point_cloud ld = flatten pts ->
  exists obs self',
    _get_state self = (Ok obs, self') /\
    length obs = 81%nat /\
    Forall (fun row => length row = 3%nat) obs /\
    nth_error obs 0 = Some (row_of (airsim.position (airsim.kinematics_estimated ms))) /\
    forall i, (i < 80)%nat ->
      nth_error obs (1 + i) = Some (nth i (map row_of pts) [0; 0; 0]).
Proof.
  intros Hms Hld Hcloud.
  assert (Hre : np.reshape_3 (airsim.point_cloud ld) = Ok (map row_of pts))
    by (rewrite Hcloud; apply reshape_3_flatten).
  rewrite (_get_state_run self ms c1 ld c2 _ Hms Hld Hre).
  eexists. eexists. split; [reflexivity|].
  split; [|split; [|split]].
  - cbn [length]. now rewrite lidar_80_length.
  - constructor; [reflexivity|]. apply lidar_80_columns, map_row_of_columns.
  - reflexivity.
  - intros i Hi. cbn [Nat.add nth_error]. now apply lidar_80_nth.
Qed.

(** C3.  With [n] points in the raw cloud, the LiDAR rows of the
    observation (all rows after row 0) are: the [n] points followed by
    [80 - n] zero rows when [n < 80]; the first 80 points, in order, when
    [n > 80]; the points unchanged when [n = 80]. *)
Theorem get_state_pad_or_truncate (self : AirSimDroneEnv S) ms c1 ld c2
    (pts : list airsim.Vector3r) :
  airsim.getMultirotorState (client self) = (ms, c1) ->
  airsim.getLidarData (lidar_name self) c1 = (ld, c2) ->
  airsim.point_cloud ld = flatten pts ->
  exists obs self',
    _get_state self = (Ok obs, self') /\
    ((length pts < 80)%nat ->
       tl obs = map row_of pts ++ repeat [0; 0; 0] (80 - length pts)) /\
    ((length pts > 80)%nat -> tl obs = map row_of (firstn 80 pts)) /\
    (length pts = 80%nat -> tl obs = map row_of pts).
Proof.
  intros Hms Hld Hcloud.
  assert (Hre : np.reshape_3 (airsim.point_cloud ld) = Ok (map row_of pts))
    by (rewrite Hcloud; apply reshape_3_flatten).
  rewrite (_get_state_run self ms c1 ld c2 _ Hms Hld Hre).
  eexists. eexists. split; [reflexivity|].
  cbn [tl]. unfold lidar_80. rewrite length_map.
  destruct (Nat.ltb_spec (length pts) 80) as [Hlt|Hge].
  - split; [reflexivity | split; intros ?; lia].
  - destruct (Nat.ltb_spec 80 (length pts)) as [Hgt|Hle].
    + split; [intros ?; lia | split; [intros _; apply firstn_map | intros ?; lia]].
    + split; [intros ?; lia | split; [intros ?; lia | reflexivity]].
Qed.

End Observation.

(* ================================================================== *)
(** ** The reward function *)

(** Reduction of the environment's fields, and of the array operations on
    explicit rows; the real arithmetic is left alone. *)
Ltac env_cbn :=
  cbn [client step_in_episode max_steps safe_bound stdout step_count target_pos
       with_client with_stdout with_step_in_episode with_step_count fst snd].

Ltac env_cbn_all :=
  cbn [client step_in_episode max_steps safe_bound stdout step_count target_pos
       with_client with_stdout with_step_in_episode with_step_count fst snd] in *.

Ltac array_cbn :=
  cbn [np.item0 np.subtract length Nat.eqb np.zip_minus].

Ltac by_rw E := rewrite E; env_cbn.

Lemma norm_offset (x y z a b c : R) :
  np.linalg.norm [x - a; y - b; z - c] = euclidean (x, y, z) (a, b, c).
Proof. unfold np.linalg.norm, euclidean. cbn [np.sum_squares]. f_equal. ring. Qed.

Lemma Rltb_true x y : x < y -> Rltb x y = true.
Proof. intros Hlt. unfold Rltb. destruct (Rlt_dec x y); [reflexivity | contradiction]. Qed.

Lemma Rltb_false x y : ~ x < y -> Rltb x y = false.
Proof. intros Hge. unfold Rltb. destruct (Rlt_dec x y); [contradiction | reflexivity]. Qed.

(** [x ** 1.5] is the real power of exponent 3/2 on positive numbers, and
    it is 0 at 0. *)
Lemma pow_1_5_Rpower x : 0 < x -> np.pow_1_5 x = Rpower x (3 / 2).
Proof.
  intros Hx. unfold np.pow_1_5.
  replace (3 / 2) with (1 + / 2) by lra.
  rewrite Rpower_plus, Rpower_1, Rpower_sqrt by exact Hx. reflexivity.
Qed.

Lemma pow_1_5_0 : np.pow_1_5 0 = 0.
Proof. unfold np.pow_1_5. apply Rmult_0_l. Qed.

Lemma pow_1_5_small x : 0 <= x <= 1 -> 0 <= np.pow_1_5 x <= x.
Proof.
  intros [H0 H1]. unfold np.pow_1_5.
  pose proof (sqrt_pos x) as Hs.
  assert (Hs1 : sqrt x <= 1) by (rewrite <- sqrt_1; now apply sqrt_le_1_alt).
  split; nra.
Qed.

(** A coefficient times the power stays below any bound near 0. *)
Lemma shaping_term_small k a delta :
  0 <= a -> a < delta -> delta <= 1 ->
  Rabs (k * np.pow_1_5 a) <= Rabs k * delta.
Proof.
  intros Ha Hd H1.
  destruct (pow_1_5_small a) as [Hp0 Hpa]; [lra|].
  rewrite Rabs_mult, (Rabs_pos_eq (np.pow_1_5 a)) by exact Hp0.
  pose proof (Rabs_pos k). nra.
Qed.

Section Reward.

Context {S : Type} `{airsim.MultirotorClient S}.
Variable config : Config.

Ltac run_reward Hci :=
  unfold calculate_reward, terminal_env, continuing_env,
    bind, query, gets, get_step_in_episode, lift, print, modify, ret;
  rewrite Hci; env_cbn.


Lemma reward_collision self prev cur ns ci c1 :
  airsim.simGetCollisionInfo (client self) = (ci, c1) ->
  airsim.has_collided ci = true ->
  calculate_reward config prev cur ns self =
    (Ok (REWARD_COLLISION config, true), terminal_env self c1 DebugCollision).
Proof.
  intros Hci Hcol. run_reward Hci. by_rw Hcol. reflexivity.
Qed.

Lemma reward_max_step self prev cur ns ci c1 n :
  airsim.simGetCollisionInfo (client self) = (ci, c1) ->
  airsim.has_collided ci = false ->
  step_in_episode self = Some n ->
  (max_steps self <= n)%Z ->
  calculate_reward config prev cur ns self =
    (Ok (REWARD_MAX_STEP_EXCEED config, true), terminal_env self c1 DebugMaxStep).
Proof.
  intros Hci Hcol Hn Hmax. run_reward Hci. by_rw Hcol. by_rw Hn.
  apply Z.leb_le in Hmax. by_rw Hmax. reflexivity.
Qed.

Lemma reward_goal self prev cur ns ci c1 n :
  airsim.simGetCollisionInfo (client self) = (ci, c1) ->
  airsim.has_collided ci = false ->
  step_in_episode self = Some n ->
  (n < max_steps self)%Z ->
  cur < 1 ->
  calculate_reward config prev cur ns self =
    (Ok (REWARD_GOAL config, true), terminal_env self c1 DebugGoal).
Proof.
  intros Hci Hcol Hn Hmax Hcur. run_reward Hci. by_rw Hcol. by_rw Hn.
  apply Z.leb_gt in Hmax. by_rw Hmax. by_rw (Rltb_true _ _ Hcur). reflexivity.
Qed.

Lemma reward_out_of_bounds self prev cur ns ci c1 n x y z rest :
  airsim.simGetCollisionInfo (client self) = (ci, c1) ->
  airsim.has_collided ci = false ->
  step_in_episode self = Some n ->
  (n < max_steps self)%Z ->
  ~ cur < 1 ->
  ns = [x; y; z] :: rest ->
  safe_bound self < euclidean (x, y, z) (0, 0, -2) ->
  calculate_reward config prev cur ns self =
    (Ok (REWARD_OUT_OF_BOUNDS config, true), terminal_env self c1 DebugOutOfBounds).
Proof.
  intros Hci Hcol Hn Hmax Hcur -> Hout. run_reward Hci. by_rw Hcol. by_rw Hn.
  apply Z.leb_gt in Hmax. by_rw Hmax. by_rw (Rltb_false _ _ Hcur).
  array_cbn. rewrite norm_offset. by_rw (Rltb_true _ _ Hout). reflexivity.
Qed.

(** The two shaped rewards of the last branch. *)
Lemma reward_shaping self prev cur ns ci c1 n x y z rest :
  airsim.simGetCollisionInfo (client self) = (ci, c1) ->
  airsim.has_collided ci = false ->
  step_in_episode self = Some n ->
  (n < max_steps self)%Z ->
  ~ cur < 1 ->
  ns = [x; y; z] :: rest ->
  ~ safe_bound self < euclidean (x, y, z) (0, 0, -2) ->
  calculate_reward config prev cur ns self =
    if Rlt_dec 0 (prev - cur) then
      (Ok (REWARD_STEP config + REWARD_DISTANCE_GAIN config * np.pow_1_5 (prev - cur), false),
       continuing_env self c1
         (DebugApproach (REWARD_STEP config
                         + REWARD_DISTANCE_GAIN config * np.pow_1_5 (prev - cur))) n)
    else
      (Ok (REWARD_STEP config + REWARD_DISTANCE_LOSS config * np.pow_1_5 (Rabs (prev - cur)),
           false),
       continuing_env self c1
         (DebugAway (REWARD_STEP config
                     + REWARD_DISTANCE_LOSS config * np.pow_1_5 (Rabs (prev - cur)))) n).
Proof.
  intros Hci Hcol Hn Hmax Hcur -> Hin. run_reward Hci. by_rw Hcol. by_rw Hn.
  apply Z.leb_gt in Hmax. by_rw Hmax. by_rw (Rltb_false _ _ Hcur).
  array_cbn. rewrite norm_offset. by_rw (Rltb_false _ _ Hin).
  unfold Rltb. destruct (Rlt_dec 0 (prev - cur)); env_cbn; by_rw Hn; reflexivity.
Qed.

(** C4.  The terminal branches are tried in the order collision, step
    limit, goal, out of bounds, and the first that applies decides.  A
    collision decides whatever the counter (even unassigned), the distance
    and the observation are, and only its message is printed; in particular
    a call with a collision, the goal reached and the step limit reached
    returns the collision penalty, terminal. *)
Theorem calculate_reward_priority self prev cur ns ci c1 :
  airsim.simGetCollisionInfo (client self) = (ci, c1) ->
  (airsim.has_collided ci = true ->
     calculate_reward config prev cur ns self =
       (Ok (REWARD_COLLISION config, true), terminal_env self c1 DebugCollision)) /\
  (airsim.has_collided ci = false ->
     forall n, step_in_episode self = Some n ->
     ((max_steps self <= n)%Z ->
        calculate_reward config prev cur ns self =
          (Ok (REWARD_MAX_STEP_EXCEED config, true), terminal_env self c1 DebugMaxStep)) /\
     ((n < max_steps self)%Z ->
        (cur < 1 ->
           calculate_reward config prev cur ns self =
             (Ok (REWARD_GOAL config, true), terminal_env self c1 DebugGoal)) /\
        (~ cur < 1 ->
           forall x y z rest, ns = [x; y; z] :: rest ->
           safe_bound self < euclidean (x, y, z) (0, 0, -2) ->
           calculate_reward config prev cur ns self =
             (Ok (REWARD_OUT_OF_BOUNDS config, true),
              terminal_env self c1 DebugOutOfBounds)))) /\
  (airsim.has_collided ci = true -> cur < 1 ->
     (exists n, step_in_episode self = Some n /\ (max_steps self <= n)%Z) ->
     fst (calculate_reward config prev cur ns self) = Ok (REWARD_COLLISION config, true)).
Proof.
  intros Hci. split; [|split].
  - intros Hcol. now apply reward_collision with (ci := ci).
  - intros Hcol n Hn. split.
    + intros Hmax. now apply reward_max_step with (ci := ci) (n := n).
    + intros Hmax. split.
      * intros Hcur. now apply reward_goal with (ci := ci) (n := n).
      * intros Hcur x y z rest Hns Hout.
        now apply reward_out_of_bounds with (ci := ci) (n := n) (x := x) (y := y) (z := z) (rest := rest).
  - intros Hcol _ _. now rewrite (reward_collision self prev cur ns ci c1 Hci Hcol).
Qed.

(** C5.  Without a collision, with the per-episode counter at or above the
    step limit and the current distance below 1, the call returns the
    timeout penalty, terminal: the step-limit message is printed, not the
    goal message. *)
Theorem timeout_before_goal self prev cur ns ci c1 n :
  airsim.simGetCollisionInfo (client self) = (ci, c1) ->
  airsim.has_collided ci = false ->
  step_in_episode self = Some n ->
  (max_steps self <= n)%Z ->
  cur < 1 ->
  calculate_reward config prev cur ns self =
    (Ok (REWARD_MAX_STEP_EXCEED config, true), terminal_env self c1 DebugMaxStep).
Proof.
  intros Hci Hcol Hn Hmax _. now apply reward_max_step with (ci := ci) (n := n).
Qed.

(** Inside the safe radius the call is not terminal and prints one of the
    two shaping messages. *)
Lemma reward_not_terminal self prev cur ns ci c1 n x y z rest :
  airsim.simGetCollisionInfo (client self) = (ci, c1) ->
  airsim.has_collided ci = false ->
  step_in_episode self = Some n ->
  (n < max_steps self)%Z ->
  ~ cur < 1 ->
  ns = [x; y; z] :: rest ->
  euclidean (x, y, z) (0, 0, -2) <= safe_bound self ->
  exists reward msg,
    calculate_reward config prev cur ns self =
      (Ok (reward, false), continuing_env self c1 msg n) /\
    msg <> DebugOutOfBounds.
Proof.
  intros Hci Hcol Hn Hmax Hcur Hns Hle.
  rewrite (reward_shaping self prev cur ns ci c1 n x y z rest) by (auto; lra).
  destruct (Rlt_dec 0 (prev - cur)).
  - eexists. eexists. split; [reflexivity | discriminate].
  - eexists. eexists. split; [reflexivity | discriminate].
Qed.

(** C6.  In the boundary branch (no collision, step limit not reached,
    goal not reached), with [(x, y, z)] row 0 of the new observation: when
    its Euclidean distance to (0, 0, -2) is strictly above the safe radius
    the call returns the out-of-bounds penalty, terminal; when the distance
    is at most the safe radius, and so when it equals it, the call is not
    terminal and prints no out-of-bounds message. *)
Theorem boundary_check_strict self prev cur ns ci c1 n x y z rest :
  airsim.simGetCollisionInfo (client self) = (ci, c1) ->
  airsim.has_collided ci = false ->
  step_in_episode self = Some n ->
  (n < max_steps self)%Z ->
  ~ cur < 1 ->
  ns = [x; y; z] :: rest ->
  (euclidean (x, y, z) (0, 0, -2) > safe_bound self ->
     calculate_reward config prev cur ns self =
       (Ok (REWARD_OUT_OF_BOUNDS config, true), terminal_env self c1 DebugOutOfBounds)) /\
  (euclidean (x, y, z) (0, 0, -2) <= safe_bound self ->
     exists reward msg,
       calculate_reward config prev cur ns self =
         (Ok (reward, false), continuing_env self c1 msg n) /\
       msg <> DebugOutOfBounds) /\
  (euclidean (x, y, z) (0, 0, -2) = safe_bound self ->
     exists reward self',
       calculate_reward config prev cur ns self = (Ok (reward, false), self')).
Proof.
  intros Hci Hcol Hn Hmax Hcur Hns.
  pose proof (reward_not_terminal self prev cur ns ci c1 n x y z rest
                Hci Hcol Hn Hmax Hcur Hns) as Hin.
  split; [|split].
  - intros Hout. now apply reward_out_of_bounds with (ci := ci) (n := n) (x := x) (y := y) (z := z) (rest := rest).
  - exact Hin.
  - intros Heq. destruct Hin as (reward & msg & E & _); [lra|].
    exists reward. eexists. exact E.
Qed.

(** C7.  In the last branch, with the change [prev - cur] of the distance:
    a positive change gives the base reward plus gain times the change to
    the power 1.5, any other change the base reward plus loss times the
    absolute change to the power 1.5; the result is not terminal.  At a zero
    change both formulas give the base reward, and the reward tends to the
    base reward as the change tends to 0. *)
Theorem shaping_reward self ns ci c1 n x y z rest :
  airsim.simGetCollisionInfo (client self) = (ci, c1) ->
  airsim.has_collided ci = false ->
  step_in_episode self = Some n ->
  (n < max_steps self)%Z ->
  ns = [x; y; z] :: rest ->
  euclidean (x, y, z) (0, 0, -2) <= safe_bound self ->
  (forall prev cur, ~ cur < 1 ->
     (prev - cur > 0 ->
        calculate_reward config prev cur ns self =
          (Ok (REWARD_STEP config
               + REWARD_DISTANCE_GAIN config * Rpower (prev - cur) (3 / 2), false),
           continuing_env self c1
             (DebugApproach (REWARD_STEP config
                + REWARD_DISTANCE_GAIN config * Rpower (prev - cur) (3 / 2))) n)) /\
     (prev - cur < 0 ->
        calculate_reward config prev cur ns self =
          (Ok (REWARD_STEP config
               + REWARD_DISTANCE_LOSS config * Rpower (Rabs (prev - cur)) (3 / 2), false),
           continuing_env self c1
             (DebugAway (REWARD_STEP config
                + REWARD_DISTANCE_LOSS config * Rpower (Rabs (prev - cur)) (3 / 2))) n)) /\
     (prev - cur = 0 ->
        calculate_reward config prev cur ns self =
          (Ok (REWARD_STEP config, false),
           continuing_env self c1 (DebugAway (REWARD_STEP config)) n))) /\
  REWARD_STEP config + REWARD_DISTANCE_GAIN config * np.pow_1_5 0 = REWARD_STEP config /\
  REWARD_STEP config + REWARD_DISTANCE_LOSS config * np.pow_1_5 (Rabs 0) = REWARD_STEP config /\
  (forall eps, 0 < eps ->
     exists delta, 0 < delta /\
       forall prev cur, ~ cur < 1 -> Rabs (prev - cur) < delta ->
       exists reward self',
         calculate_reward config prev cur ns self = (Ok (reward, false), self') /\
         Rabs (reward - REWARD_STEP config) < eps).
Proof.
  intros Hci Hcol Hn Hmax Hns Hin.
  assert (Hrun := fun prev cur Hcur =>
    reward_shaping self prev cur ns ci c1 n x y z rest Hci Hcol Hn Hmax Hcur Hns
      (Rle_not_lt _ _ Hin)).
  split; [|split; [|split]].
  - intros prev cur Hcur. rewrite (Hrun prev cur Hcur). split; [|split].
    + intros Hpos. destruct (Rlt_dec 0 (prev - cur)); [|lra].
      now rewrite pow_1_5_Rpower.
    + intros Hneg. destruct (Rlt_dec 0 (prev - cur)); [lra|].
      rewrite pow_1_5_Rpower; [reflexivity|].
      apply Rabs_pos_lt. lra.
    + intros Hzero. destruct (Rlt_dec 0 (prev - cur)); [lra|].
      rewrite Hzero, Rabs_R0, pow_1_5_0, Rmult_0_r, Rplus_0_r. reflexivity.
  - rewrite pow_1_5_0. ring.
  - rewrite Rabs_R0, pow_1_5_0. ring.
  - intros eps Heps.
    set (m := Rabs (REWARD_DISTANCE_GAIN config) + Rabs (REWARD_DISTANCE_LOSS config) + 1).
    assert (Hm : 0 < m).
    { pose proof (Rabs_pos (REWARD_DISTANCE_GAIN config)).
      pose proof (Rabs_pos (REWARD_DISTANCE_LOSS config)). unfold m. lra. }
    assert (Hq : 0 < eps / m) by now apply Rdiv_lt_0_compat.
    exists (Rmin 1 (eps / m)). split; [apply Rmin_glb_lt; lra|].
    intros prev cur Hcur Hd. rewrite (Hrun prev cur Hcur).
    pose proof (Rmin_l 1 (eps / m)) as Hd1.
    pose proof (Rmin_r 1 (eps / m)) as Hd2.
    assert (Hme : m * (eps / m) = eps) by (field; lra).
    pose proof (Rabs_pos (REWARD_DISTANCE_GAIN config)) as Hg.
    pose proof (Rabs_pos (REWARD_DISTANCE_LOSS config)) as Hl.
    pose proof (Rabs_pos (prev - cur)) as Ha.
    destruct (Rlt_dec 0 (prev - cur)) as [Hpos|Hneg].
    + eexists. eexists. split; [reflexivity|].
      rewrite Rabs_pos_eq in Hd by lra.
      replace (REWARD_STEP config
               + REWARD_DISTANCE_GAIN config * np.pow_1_5 (prev - cur) - REWARD_STEP config)
        with (REWARD_DISTANCE_GAIN config * np.pow_1_5 (prev - cur)) by ring.
      pose proof (shaping_term_small (REWARD_DISTANCE_GAIN config) (prev - cur)
                    (Rmin 1 (eps / m))) as Hs.
      unfold m in *. nra.
    + eexists. eexists. split; [reflexivity|].
      replace (REWARD_STEP config
               + REWARD_DISTANCE_LOSS config * np.pow_1_5 (Rabs (prev - cur))
               - REWARD_STEP config)
        with (REWARD_DISTANCE_LOSS config * np.pow_1_5 (Rabs (prev - cur))) by ring.
      pose proof (shaping_term_small (REWARD_DISTANCE_LOSS config) (Rabs (prev - cur))
                    (Rmin 1 (eps / m))) as Hs.
      unfold m in *. nra.
Qed.

(** When the goal test fails, whatever follows prints no goal message. *)
Lemma reward_no_goal self prev cur ns ci c1 n :
  airsim.simGetCollisionInfo (client self) = (ci, c1) ->
  airsim.has_collided ci = false ->
  step_in_episode self = Some n ->
  (n < max_steps self)%Z ->
  ~ cur < 1 ->
  exists out,
    stdout (snd (calculate_reward config prev cur ns self)) = stdout self ++ out /\
    ~ In DebugGoal out.
Proof.
  intros Hci Hcol Hn Hmax Hcur.
  unfold calculate_reward, bind, query, gets, get_step_in_episode, lift, print, modify, ret.
  rewrite Hci. by_rw Hcol. by_rw Hn.
  apply Z.leb_gt in Hmax. by_rw Hmax. by_rw (Rltb_false _ _ Hcur).
  destruct ns as [|row rest]; cbn [np.item0].
  { exists []. split; [now rewrite app_nil_r | intros []]. }
  destruct (np.subtract row [0; 0; -2]) as [offset|e]; cbn [snd stdout with_client].
  2:{ exists []. split; [now rewrite app_nil_r | intros []]. }
  destruct (Rltb (safe_bound self) (np.linalg.norm offset)); env_cbn.
  { eexists. split; [reflexivity | intros [E|[]]; discriminate]. }
  destruct (Rltb 0 (prev - cur)); env_cbn; by_rw Hn;
    (eexists; split; [reflexivity | intros [E|[]]; discriminate]).
Qed.

(** C8.  Without a collision and below the step limit, the goal branch is
    taken exactly when the current distance is strictly below 1, a
    threshold no configuration changes: the goal message is printed by the
    call if and only if [cur < 1], and then the call returns the goal
    reward, terminal; at [cur = 1] the branch is not taken. *)
Theorem goal_threshold self prev cur ns ci c1 n :
  airsim.simGetCollisionInfo (client self) = (ci, c1) ->
  airsim.has_collided ci = false ->
  step_in_episode self = Some n ->
  (n < max_steps self)%Z ->
  exists out,
    stdout (snd (calculate_reward config prev cur ns self)) = stdout self ++ out /\
    (In DebugGoal out <-> cur < 1) /\
    (cur < 1 ->
       calculate_reward config prev cur ns self =
         (Ok (REWARD_GOAL config, true), terminal_env self c1 DebugGoal)) /\
    (cur = 1 -> ~ In DebugGoal out).
Proof.
  intros Hci Hcol Hn Hmax.
  destruct (Rlt_dec cur 1) as [Hcur|Hcur].
  - exists [DebugGoal].
    rewrite (reward_goal self prev cur ns ci c1 n Hci Hcol Hn Hmax Hcur).
    split; [reflexivity|]. split; [|split].
    + split; [intros _; exact Hcur | intros _; now left].
    + reflexivity.
    + intros ->. lra.
  - destruct (reward_no_goal self prev cur ns ci c1 n Hci Hcol Hn Hmax Hcur)
      as (out & Hout & Hnot).
    exists out. split; [exact Hout|]. split; [|split].
    + split; [intros Hin; now elim Hnot | intros Hlt; now elim Hcur].
    + intros Hlt. now elim Hcur.
    + intros _. exact Hnot.
Qed.

(** C10.  Whenever the reward function returns with the terminal flag
    set, the per-episode counter is 0 afterwards, whichever of the four
    terminal branches returned. *)
Theorem terminal_resets_step_in_episode self prev cur ns reward self' :
  calculate_reward config prev cur ns self = (Ok (reward, true), self') ->
  step_in_episode self' = Some 0%Z.
Proof.
  unfold calculate_reward, bind, query, gets, get_step_in_episode, lift, print, modify, ret.
  destruct (airsim.simGetCollisionInfo (client self)) as [ci c1].
  destruct (airsim.has_collided ci); env_cbn.
  { intros E. injection E as _ <-. reflexivity. }
  destruct (step_in_episode self) as [n|] eqn:Hn; env_cbn; [|discriminate].
  destruct (max_steps self <=? n)%Z; env_cbn.
  { intros E. injection E as _ <-. reflexivity. }
  destruct (Rltb cur 1); env_cbn.
  { intros E. injection E as _ <-. reflexivity. }
  destruct ns as [|row rest]; cbn [np.item0]; [discriminate|].
  destruct (np.subtract row [0; 0; -2]) as [offset|e]; [|discriminate].
  destruct (Rltb (safe_bound self) (np.linalg.norm offset)); env_cbn.
  { intros E. injection E as _ <-. reflexivity. }
  destruct (Rltb 0 (prev - cur)); env_cbn; rewrite Hn; discriminate.
Qed.

(** The four terminal branches, each with the counter at 0 afterwards. *)
Lemma terminal_branches self prev cur ns reward self' :
  calculate_reward config prev cur ns self = (Ok (reward, true), self') ->
  exists c1 msg,
    self' = terminal_env self c1 msg /\
    ((msg = DebugCollision /\ reward = REWARD_COLLISION config) \/
     (msg = DebugMaxStep /\ reward = REWARD_MAX_STEP_EXCEED config) \/
     (msg = DebugGoal /\ reward = REWARD_GOAL config) \/
     (msg = DebugOutOfBounds /\ reward = REWARD_OUT_OF_BOUNDS config)).
Proof.
  unfold calculate_reward, terminal_env,
    bind, query, gets, get_step_in_episode, lift, print, modify, ret.
  destruct (airsim.simGetCollisionInfo (client self)) as [ci c1].
  destruct (airsim.has_collided ci); env_cbn.
  { intros E. injection E as <- <-. exists c1, DebugCollision. tauto. }
  destruct (step_in_episode self) as [n|] eqn:Hn; env_cbn; [|discriminate].
  destruct (max_steps self <=? n)%Z; env_cbn.
  { intros E. injection E as <- <-. exists c1, DebugMaxStep. tauto. }
  destruct (Rltb cur 1); env_cbn.
  { intros E. injection E as <- <-. exists c1, DebugGoal. tauto. }
  destruct ns as [|row rest]; cbn [np.item0]; [discriminate|].
  destruct (np.subtract row [0; 0; -2]) as [offset|e]; [|discriminate].
  destruct (Rltb (safe_bound self) (np.linalg.norm offset)); env_cbn.
  { intros E. injection E as <- <-. exists c1, DebugOutOfBounds. tauto. }
  destruct (Rltb 0 (prev - cur)); env_cbn; rewrite Hn; discriminate.
Qed.

End Reward.

(* ================================================================== *)
(** ** Steps and resets *)

Lemma fake_hover (duration : R) (s : FakeSim) :
  airsim.moveByVelocityAsync 0 0 0 duration s = s.
Proof.
  destruct s as [[px py pz] cloud collided].
  unfold airsim.moveByVelocityAsync, FakeClient, fake_move.
  cbn [fake_position fake_cloud fake_collided airsim.x_val airsim.y_val airsim.z_val].
  f_equal. f_equal; ring.
Qed.

Lemma sum_squares_nonneg a : 0 <= np.sum_squares a.
Proof. induction a as [|x a IH]; cbn [np.sum_squares]; [lra | nra]. Qed.

Lemma sum_3_squares_nonneg x y z : 0 <= x * x + y * y + z * z.
Proof.
  pose proof (Rle_0_sqr x). pose proof (Rle_0_sqr y). pose proof (Rle_0_sqr z).
  unfold Rsqr in *. lra.
Qed.

Section Step.

Context {S : Type} `{airsim.MultirotorClient S}.
Variable config : Config.

Ltac run_all :=
  unfold _get_state, calculate_reward, distance_to_target, terminal_env, continuing_env,
    bind, query, gets, get_step_in_episode, lift, print, modify, ret.

(** The state query touches the simulator and the standard output only. *)
Lemma _get_state_frame (self : AirSimDroneEnv S) :
  step_count (snd (_get_state self)) = step_count self /\
  step_in_episode (snd (_get_state self)) = step_in_episode self /\
  target_pos (snd (_get_state self)) = target_pos self /\
  max_steps (snd (_get_state self)) = max_steps self.
Proof.
  run_all.
  destruct (airsim.getMultirotorState (client self)) as [ms c1]. env_cbn.
  destruct (airsim.getLidarData _ c1) as [ld c2].
  destruct (np.reshape_3 (airsim.point_cloud ld)); env_cbn; repeat split.
Qed.

(** Computing a distance changes nothing. *)
Lemma distance_to_target_frame state (self : AirSimDroneEnv S) :
  snd (distance_to_target state self) = self.
Proof.
  run_all. destruct (np.subtract_rows _ _); reflexivity.
Qed.

(** The distance [step] computes from an observation whose first three
    rows are [a], [b] and [c]: the Frobenius norm of the three offsets from
    the target, that is, the root of the sum of the three squared
    Euclidean distances. *)
Lemma distance_to_target_three_rows (self : AirSimDroneEnv S)
    a0 a1 a2 b0 b1 b2 c0 c1 c2 rest :
  distance_to_target ([a0; a1; a2] :: [b0; b1; b2] :: [c0; c1; c2] :: rest) self =
    (Ok (sqrt (Rsqr (euclidean (a0, a1, a2) (target_pos self))
               + Rsqr (euclidean (b0, b1, b2) (target_pos self))
               + Rsqr (euclidean (c0, c1, c2) (target_pos self)))),
     self).
Proof.
  run_all. destruct (target_pos self) as [[tx ty] tz].
  cbn [array3 np.take firstn np.subtract_rows np.subtract length Nat.eqb np.zip_minus].
  unfold np.linalg.norm_2d, euclidean. cbn [concat app np.sum_squares].
  do 3 f_equal. rewrite !Rsqr_sqrt by apply sum_3_squares_nonneg. ring.
Qed.

(** The reward function leaves the lifetime counter alone. *)
Lemma calculate_reward_step_count prev cur ns (self : AirSimDroneEnv S) :
  step_count (snd (calculate_reward config prev cur ns self)) = step_count self.
Proof.
  run_all.
  destruct (airsim.simGetCollisionInfo (client self)) as [ci c1].
  destruct (airsim.has_collided ci); env_cbn; [reflexivity|].
  destruct (step_in_episode self) as [n|] eqn:Hn; env_cbn; [|reflexivity].
  destruct (max_steps self <=? n)%Z; env_cbn; [reflexivity|].
  destruct (Rltb cur 1); env_cbn; [reflexivity|].
  destruct ns as [|row rest]; cbn [np.item0]; [reflexivity|].
  destruct (np.subtract row [0; 0; -2]) as [offset|e]; [|reflexivity].
  destruct (Rltb (safe_bound self) (np.linalg.norm offset)); env_cbn; [reflexivity|].
  destruct (Rltb 0 (prev - cur)); env_cbn; rewrite Hn; reflexivity.
Qed.

(** A call that is not terminal read the per-episode counter and left it
    one higher. *)
Lemma reward_continues prev cur ns (self : AirSimDroneEnv S) reward self' :
  calculate_reward config prev cur ns self = (Ok (reward, false), self') ->
  exists n, step_in_episode self = Some n /\ step_in_episode self' = Some (n + 1)%Z.
Proof.
  run_all.
  destruct (airsim.simGetCollisionInfo (client self)) as [ci c1].
  destruct (airsim.has_collided ci); env_cbn; [discriminate|].
  destruct (step_in_episode self) as [n|] eqn:Hn; env_cbn; [|discriminate].
  destruct (max_steps self <=? n)%Z; env_cbn; [discriminate|].
  destruct (Rltb cur 1); env_cbn; [discriminate|].
  destruct ns as [|row rest]; cbn [np.item0]; [discriminate|].
  destruct (np.subtract row [0; 0; -2]) as [offset|e]; [|discriminate].
  destruct (Rltb (safe_bound self) (np.linalg.norm offset)); env_cbn; [discriminate|].
  destruct (Rltb 0 (prev - cur)); env_cbn; rewrite Hn;
    intros E; injection E as _ <-; exists n; split; reflexivity.
Qed.

(** [step], run on the results of its calls. *)
Lemma step_run action (self : AirSimDroneEnv S) vx vy vz yaw_rate
    state s1 new_state s2 prev cur reward done s3 :
  action = [vx; vy; vz; yaw_rate] ->
  _get_state (with_stdout (stdout self ++ [DebugAction action]) self) = (Ok state, s1) ->
  _get_state (with_client (airsim.moveByVelocityAsync vx vy vz 0.5 (client s1)) s1)
    = (Ok new_state, s2) ->
  distance_to_target state s2 = (Ok prev, s2) ->
  distance_to_target new_state s2 = (Ok cur, s2) ->
  calculate_reward config prev cur new_state s2 = (Ok (reward, done), s3) ->
  step config action self =
    (Ok (new_state, reward, done, tt), with_step_count (step_count s3 + 1) s3).
Proof.
  intros -> Hstate Hnew Hprev Hcur Hreward.
  unfold step.
  rewrite (bind_ok _ _ self tt (with_stdout (stdout self ++ [DebugAction [vx; vy; vz; yaw_rate]]) self))
    by reflexivity.
  rewrite (bind_ok _ _ _ _ _ Hstate).
  cbn [unpack4].
  rewrite (bind_ok _ _ s1 (vx, vy, vz, yaw_rate) s1) by reflexivity.
  rewrite (bind_ok _ _ s1 tt
             (with_client (airsim.moveByVelocityAsync vx vy vz 0.5 (client s1)) s1))
    by reflexivity.
  rewrite (bind_ok _ _ _ _ _ Hnew), (bind_ok _ _ _ _ _ Hprev), (bind_ok _ _ _ _ _ Hcur),
    (bind_ok _ _ _ _ _ Hreward).
  reflexivity.
Qed.

(** What a returning [step] went through. *)
Lemma step_inv action (self : AirSimDroneEnv S) obs reward done self' :
  step config action self = (Ok (obs, reward, done, tt), self') ->
  exists state s1 s2 prev cur s3,
    _get_state (with_stdout (stdout self ++ [DebugAction action]) self) = (Ok state, s1) /\
    snd (_get_state (with_client
           (airsim.moveByVelocityAsync (nth 0 action 0) (nth 1 action 0) (nth 2 action 0)
              0.5 (client s1)) s1)) = s2 /\
    calculate_reward config prev cur obs s2 = (Ok (reward, done), s3) /\
    self' = with_step_count (step_count s3 + 1) s3.
Proof.
  intros E. unfold step in E.
  apply bind_inv in E as (u & s0 & Hprint & E).
  injection Hprint as _ <-.
  apply bind_inv in E as (state & s1 & Hstate & E).
  apply bind_inv in E as ([[[vx vy] vz] yaw_rate] & s1' & Hunpack & E).
  destruct action as [|ax [|ay [|az [|ayaw [|extra action]]]]]; try discriminate.
  injection Hunpack as <- <- <- <- <-.
  apply bind_inv in E as (u' & s1' & Hmove & E).
  injection Hmove as _ <-.
  apply bind_inv in E as (new_state & s2 & Hnew & E).
  apply bind_inv in E as (prev & s2' & Hprev & E).
  pose proof (distance_to_target_frame state s2) as Hf1.
  rewrite Hprev in Hf1. cbn [snd] in Hf1. subst s2'.
  apply bind_inv in E as (cur & s2' & Hcur & E).
  pose proof (distance_to_target_frame new_state s2) as Hf2.
  rewrite Hcur in Hf2. cbn [snd] in Hf2. subst s2'.
  apply bind_inv in E as ([r d] & s3 & Hreward & E).
  unfold bind, gets, modify, ret in E. injection E as <- <- <- <-.
  exists state, s1, s2, prev, cur, s3.
  cbn [nth]. rewrite Hnew. auto.
Qed.

(** [reset], run on the result of its state query. *)
Lemma reset_run (self : AirSimDroneEnv S) :
  exists s0,
    step_count s0 = 0%Z /\ step_in_episode s0 = Some 0%Z /\
    reset self =
      match _get_state s0 with
      | (Ok state, s1) => (Ok state, with_stdout (stdout s1 ++ [InfoResetDone state]) s1)
      | (Raise e, s1) => (Raise e, s1)
      end.
Proof.
  exists (with_step_in_episode 0 (with_lidar_data_log [] (with_step_count 0
            (with_client
               (airsim.takeoffAsync
                  (airsim.moveToPositionAsync 0 0 (-1) 1
                     (airsim.armDisarm true
                        (airsim.enableApiControl true (airsim.reset (client self))))))
               self)))).
  split; [reflexivity|]. split; [reflexivity|].
  unfold reset, bind, call, modify, print, ret.
  cbn [client with_client with_step_count with_lidar_data_log with_step_in_episode].
  destruct (_get_state _) as [[state|e] s1]; reflexivity.
Qed.

(** A [reset] that returns gives an observation of 81 rows and 3 columns. *)
Lemma reset_returns_81_by_3 (self : AirSimDroneEnv S) obs self' :
  reset self = (Ok obs, self') ->
  length obs = 81%nat /\ Forall (fun row => length row = 3%nat) obs.
Proof.
  destruct (reset_run self) as (s0 & _ & _ & ->).
  destruct (_get_state s0) as [[state|e] s1] eqn:Hstate; [|discriminate].
  intros E. injection E as <- _.
  exact (_get_state_returns_81_by_3 s0 state s1 Hstate).
Qed.

(** C9, as the code has it.  Every [reset] leaves both counters at zero.
    A [step] that returns has raised the lifetime counter by one, terminal
    or not; the per-episode counter is raised by one by a step that is not
    terminal, and is zero after a terminal step. *)
Theorem counters_reset_and_step :
  (forall self : AirSimDroneEnv S,
     step_count (snd (reset self)) = 0%Z /\
     step_in_episode (snd (reset self)) = Some 0%Z) /\
  (forall action (self : AirSimDroneEnv S) obs reward done self',
     step config action self = (Ok (obs, reward, done, tt), self') ->
     step_count self' = (step_count self + 1)%Z /\
     (done = false ->
        exists n, step_in_episode self = Some n /\ step_in_episode self' = Some (n + 1)%Z) /\
     (done = true -> step_in_episode self' = Some 0%Z)).
Proof.
  split.
  - intros self. destruct (reset_run self) as (s0 & Hc & He & ->).
    destruct (_get_state_frame s0) as (Fc & Fe & _).
    destruct (_get_state s0) as [[state|e] s1]; cbn [snd] in *;
      env_cbn; rewrite Fc, Fe; auto.
  - intros action self obs reward done self' E.
    apply step_inv in E as (state & s1 & s2 & prev & cur & s3 & Hstate & Hnew & Hreward & ->).
    destruct (_get_state_frame (with_stdout (stdout self ++ [DebugAction action]) self))
      as (Fc1 & Fe1 & _).
    rewrite Hstate in Fc1, Fe1. cbn [snd] in Fc1, Fe1.
    match type of Hnew with snd (_get_state ?s) = _ =>
      destruct (_get_state_frame s) as (Fc2 & Fe2 & _) end.
    rewrite Hnew in Fc2, Fe2.
    pose proof (calculate_reward_step_count prev cur obs s2) as Fc3.
    rewrite Hreward in Fc3. cbn [snd] in Fc3.
    env_cbn_all.
    split; [congruence|]. split.
    + intros ->. apply reward_continues in Hreward as (n & Hn & Hn').
      exists n. split; congruence.
    + intros ->. apply terminal_branches in Hreward as (c1 & msg & -> & _). reflexivity.
Qed.

End Step.

(* ================================================================== *)
(** ** The distance handed to the reward function *)

Lemma euclidean_on_axis z : -2 <= z -> euclidean (0, 0, z) (0, 0, -2) = z + 2.
Proof.
  intros Hz. unfold euclidean.
  match goal with |- sqrt ?a = _ => replace a with ((z + 2) * (z + 2)) by ring end.
  apply sqrt_square. lra.
Qed.

Lemma euclidean_self p : euclidean p p = 0.
Proof.
  destruct p as [[x y] z]. unfold euclidean.
  match goal with |- sqrt ?a = _ => replace a with 0 by ring end.
  apply sqrt_0.
Qed.

Lemma euclidean_nonneg p q : 0 <= euclidean p q.
Proof. destruct p as [[x y] z], q as [[a b] c]. apply sqrt_pos. Qed.

Lemma euclidean_zero p q : euclidean p q = 0 -> p = q.
Proof.
  destruct p as [[x y] z], q as [[a b] c]. unfold euclidean. intros E.
  apply sqrt_eq_0 in E; [|apply sum_3_squares_nonneg].
  pose proof (Rle_0_sqr (x - a)) as Hx. pose proof (Rle_0_sqr (y - b)) as Hy.
  pose proof (Rle_0_sqr (z - c)) as Hz. unfold Rsqr in *.
  assert (Ex : (x - a) * (x - a) = 0) by lra.
  assert (Ey : (y - b) * (y - b) = 0) by lra.
  assert (Ez : (z - c) * (z - c) = 0) by lra.
  apply Rmult_integral in Ex, Ey, Ez.
  assert (x = a) by lra. assert (y = b) by lra. assert (z = c) by lra.
  congruence.
Qed.

(** The distance [step] computes is the Euclidean distance from the drone
    (row 0) to the target exactly when rows 1 and 2 of the observation, the
    first two LiDAR points, lie on the target. *)
Lemma distance_to_target_euclidean_iff {S : Type} (self : AirSimDroneEnv S)
    a0 a1 a2 b0 b1 b2 c0 c1 c2 rest :
  distance_to_target ([a0; a1; a2] :: [b0; b1; b2] :: [c0; c1; c2] :: rest) self =
    (Ok (euclidean (a0, a1, a2) (target_pos self)), self)
  <-> (b0, b1, b2) = target_pos self /\ (c0, c1, c2) = target_pos self.
Proof.
  rewrite distance_to_target_three_rows.
  pose proof (euclidean_nonneg (a0, a1, a2) (target_pos self)) as Ha.
  pose proof (euclidean_nonneg (b0, b1, b2) (target_pos self)) as Hb.
  pose proof (euclidean_nonneg (c0, c1, c2) (target_pos self)) as Hc.
  split.
  - pose proof (@euclidean_zero (b0, b1, b2) (target_pos self)) as Zb.
    pose proof (@euclidean_zero (c0, c1, c2) (target_pos self)) as Zc.
    revert Ha Hb Hc Zb Zc.
    generalize (euclidean (a0, a1, a2) (target_pos self)) as da.
    generalize (euclidean (b0, b1, b2) (target_pos self)) as db.
    generalize (euclidean (c0, c1, c2) (target_pos self)) as dc.
    intros dc db da Ha Hb Hc Zb Zc E. injection E as E.
    apply (f_equal Rsqr) in E.
    rewrite Rsqr_sqrt in E
      by (apply Rplus_le_le_0_compat; [apply Rplus_le_le_0_compat|]; apply Rle_0_sqr).
    pose proof (Rle_0_sqr db) as Hbb. pose proof (Rle_0_sqr dc) as Hcc.
    assert (Eb : Rsqr db = 0) by lra. assert (Ec : Rsqr dc = 0) by lra.
    apply Rsqr_0_uniq in Eb, Ec. auto.
  - intros [Eb Ec]. rewrite Eb, Ec, !euclidean_self.
    rewrite Rsqr_0, !Rplus_0_r. rewrite sqrt_Rsqr by exact Ha. reflexivity.
Qed.

Lemma example_frobenius :
  sqrt (Rsqr (euclidean (0, 0, 0) (0, 0, 0)) + Rsqr (euclidean (3, 4, 0) (0, 0, 0))
        + Rsqr (euclidean (0, 0, 0) (0, 0, 0))) = 5.
Proof.
  unfold euclidean. rewrite !Rsqr_sqrt by apply sum_3_squares_nonneg.
  match goal with |- sqrt ?a = _ => replace a with (5 * 5) by ring end.
  apply sqrt_square. lra.
Qed.

(** The state query on the stub. *)
Lemma fake_get_state (self : AirSimDroneEnv FakeSim) x y z pts collided :
  client self = fake_sim x y z pts collided ->
  _get_state self =
    (Ok ([x; y; z] :: lidar_80 (map row_of pts)),
     with_stdout (stdout self ++ [DebugLidarCount (length pts)])
       (with_client (fake_sim x y z pts collided) self)).
Proof.
  intros Hc.
  rewrite (_get_state_run self
             {| airsim.kinematics_estimated :=
                  {| airsim.position := fake_position (fake_sim x y z pts collided) |} |}
             (fake_sim x y z pts collided)
             {| airsim.point_cloud := flatten pts |}
             (fake_sim x y z pts collided)
             (map row_of pts)).
  - rewrite length_map. reflexivity.
  - rewrite Hc. reflexivity.
  - reflexivity.
  - apply reshape_3_flatten.
Qed.

(** A step of the stub under the zero velocity command: the drone stays
    where it is, both observations are the same, and so are the two
    distances handed to the reward function. *)
Lemma fake_step_hover (config : Config) (self : AirSimDroneEnv FakeSim)
    x y z pts collided b0 b1 b2 c0 c1 c2 rest :
  client self = fake_sim x y z pts collided ->
  lidar_80 (map row_of pts) = [b0; b1; b2] :: [c0; c1; c2] :: rest ->
  exists s2,
    client s2 = fake_sim x y z pts collided /\
    step_in_episode s2 = step_in_episode self /\
    max_steps s2 = max_steps self /\
    safe_bound s2 = safe_bound self /\
    step_count s2 = step_count self /\
    forall reward done s3,
      calculate_reward config
        (sqrt (Rsqr (euclidean (x, y, z) (target_pos self))
               + Rsqr (euclidean (b0, b1, b2) (target_pos self))
               + Rsqr (euclidean (c0, c1, c2) (target_pos self))))
        (sqrt (Rsqr (euclidean (x, y, z) (target_pos self))
               + Rsqr (euclidean (b0, b1, b2) (target_pos self))
               + Rsqr (euclidean (c0, c1, c2) (target_pos self))))
        ([x; y; z] :: [b0; b1; b2] :: [c0; c1; c2] :: rest) s2
      = (Ok (reward, done), s3) ->
      step config [0; 0; 0; 0] self =
        (Ok ([x; y; z] :: [b0; b1; b2] :: [c0; c1; c2] :: rest, reward, done, tt),
         with_step_count (step_count s3 + 1) s3).
Proof.
  intros Hc Hrows.
  set (sim := fake_sim x y z pts collided) in *.
  set (s0 := with_stdout (stdout self ++ [DebugAction [0; 0; 0; 0]]) self).
  assert (H1 : _get_state s0 =
                 (Ok ([x; y; z] :: lidar_80 (map row_of pts)),
                  with_stdout (stdout s0 ++ [DebugLidarCount (length pts)])
                    (with_client sim s0)))
    by (apply fake_get_state; exact Hc).
  set (s1 := with_stdout (stdout s0 ++ [DebugLidarCount (length pts)]) (with_client sim s0))
    in H1.
  set (s1' := with_client (airsim.moveByVelocityAsync 0 0 0 0.5 (client s1)) s1).
  assert (H2 : _get_state s1' =
                 (Ok ([x; y; z] :: lidar_80 (map row_of pts)),
                  with_stdout (stdout s1' ++ [DebugLidarCount (length pts)])
                    (with_client sim s1')))
    by (apply fake_get_state; apply fake_hover).
  set (s2 := with_stdout (stdout s1' ++ [DebugLidarCount (length pts)]) (with_client sim s1'))
    in H2.
  rewrite Hrows in H1, H2.
  exists s2. repeat (split; [reflexivity|]).
  intros reward done s3 Hreward.
  apply (step_run config [0; 0; 0; 0] self 0 0 0 0 _ s1 _ s2 _ _ reward done s3
           eq_refl H1 H2
           (distance_to_target_three_rows s2 x y z b0 b1 b2 c0 c1 c2 rest)
           (distance_to_target_three_rows s2 x y z b0 b1 b2 c0 c1 c2 rest)).
  exact Hreward.
Qed.

(** The stub hovering on the target with one LiDAR return at (3, 4, 0):
    the step is not terminal. *)
Lemma step_at_target :
  exists reward self',
    step example_config [0; 0; 0; 0] (running_env hovering_at_target 0) =
      (Ok (observation_at_target, reward, false, tt), self').
Proof.
  destruct (fake_step_hover example_config (running_env hovering_at_target 0)
              0 0 0 (cloud_of 1 3 4 0) false 3 4 0 0 0 0 (repeat [0; 0; 0] 78)
              eq_refl eq_refl)
    as (s2 & Hclient & Hn & Hmax & Hbound & _ & Hstep).
  change (target_pos (running_env hovering_at_target 0)) with (0, 0, 0) in Hstep.
  rewrite example_frobenius in Hstep.
  destruct (reward_not_terminal example_config s2 5 5
              ([0; 0; 0] :: [3; 4; 0] :: [0; 0; 0] :: repeat [0; 0; 0] 78)
              clear_info hovering_at_target 0%Z 0 0 0
              ([3; 4; 0] :: [0; 0; 0] :: repeat [0; 0; 0] 78))
    as (reward & msg & Hreward & _).
  - rewrite Hclient. reflexivity.
  - reflexivity.
  - rewrite Hn. reflexivity.
  - rewrite Hmax. reflexivity.
  - lra.
  - reflexivity.
  - rewrite Hbound, euclidean_on_axis by lra.
    change (safe_bound (running_env hovering_at_target 0)) with 10. lra.
  - exists reward. eexists. exact (Hstep _ _ _ Hreward).
Qed.

(** The stub after a collision: the step is terminal and the lifetime
    counter goes from 3 to 4. *)
Lemma step_after_collision :
  exists self',
    step example_config [0; 0; 0; 0] (with_step_count 3 (running_env crashed 7)) =
      (Ok (empty_observation, REWARD_COLLISION example_config, true, tt), self') /\
    step_count self' = 4%Z.
Proof.
  destruct (fake_step_hover example_config (with_step_count 3 (running_env crashed 7))
              0 0 0 [] true 0 0 0 0 0 0 (repeat [0; 0; 0] 78)
              eq_refl eq_refl)
    as (s2 & Hclient & _ & _ & _ & Hcount & Hstep).
  eexists. split.
  - apply Hstep.
    apply reward_collision with (ci := collided_info); [|reflexivity].
    rewrite Hclient. reflexivity.
  - unfold terminal_env. env_cbn. rewrite Hcount. reflexivity.
Qed.

(** C1.  The distances [step] hands to the reward function are not the
    Euclidean distance from the drone to the target: [state[:3]] is the
    first three rows of the observation, so the norm also counts the first
    two LiDAR rows.  With the drone on the target (Euclidean distance 0)
    and one LiDAR return at (3, 4, 0), the distance computed is 5 and the
    step is not terminal. *)
Theorem step_distance_spans_three_rows :
  fst (_get_state (running_env hovering_at_target 0)) = Ok observation_at_target /\
  nth_error observation_at_target 0 = Some [0; 0; 0] /\
  euclidean (0, 0, 0) (target_pos (running_env hovering_at_target 0)) = 0 /\
  fst (distance_to_target observation_at_target (running_env hovering_at_target 0)) = Ok 5 /\
  exists reward self',
    step example_config [0; 0; 0; 0] (running_env hovering_at_target 0) =
      (Ok (observation_at_target, reward, false, tt), self').
Proof.
  split; [|split; [|split; [|split]]].
  - rewrite (fake_get_state (running_env hovering_at_target 0)
               0 0 0 (cloud_of 1 3 4 0) false eq_refl).
    reflexivity.
  - reflexivity.
  - apply euclidean_self.
  - change observation_at_target
      with ([0; 0; 0] :: [3; 4; 0] :: [0; 0; 0] :: repeat [0; 0; 0] 78).
    rewrite distance_to_target_three_rows.
    change (target_pos (running_env hovering_at_target 0)) with (0, 0, 0).
    cbn [fst]. now rewrite example_frobenius.
  - exact step_at_target.
Qed.

(** C9 as stated fails for the lifetime counter: a terminal step raises
    it. *)
Lemma lifetime_counter_counts_terminal_steps :
  ~ (forall (action : list R) (self : AirSimDroneEnv FakeSim) obs reward self',
       step example_config action self = (Ok (obs, reward, true, tt), self') ->
       step_count self' = step_count self).
Proof.
  intros Hclaim. destruct step_after_collision as (self' & E & Hcount).
  apply Hclaim in E. rewrite Hcount in E. discriminate E.
Qed.

(* ================================================================== *)
(** ** The theorems at concrete inputs *)

(** C2 on a cloud of two points. *)
Lemma get_state_shape_witness :
  exists obs self',
    _get_state (fresh_env (fake_sim 1 2 (-3) (cloud_of 2 4 5 6) false)) = (Ok obs, self') /\
    length obs = 81%nat /\
    Forall (fun row => length row = 3%nat) obs /\
    nth_error obs 0 = Some [1; 2; -3] /\
    forall i, (i < 80)%nat ->
      nth_error obs (1 + i) = Some (nth i (map row_of (cloud_of 2 4 5 6)) [0; 0; 0]).
Proof.
  apply (get_state_shape (fresh_env (fake_sim 1 2 (-3) (cloud_of 2 4 5 6) false))
           {| airsim.kinematics_estimated :=
                {| airsim.position :=
                     {| airsim.x_val := 1; airsim.y_val := 2; airsim.z_val := -3 |} |} |}
           (fake_sim 1 2 (-3) (cloud_of 2 4 5 6) false)
           {| airsim.point_cloud := flatten (cloud_of 2 4 5 6) |}
           (fake_sim 1 2 (-3) (cloud_of 2 4 5 6) false)
           (cloud_of 2 4 5 6));
    reflexivity.
Defined.

(** C3 on clouds of 0, 1, 80, 81 and 200 points. *)
Lemma get_state_pad_or_truncate_witness :
  (exists obs self',
     _get_state (fresh_env (fake_sim 0 0 0 (cloud_of 0 1 2 3) false)) = (Ok obs, self') /\
     tl obs = repeat [0; 0; 0] 80) /\
  (exists obs self',
     _get_state (fresh_env (fake_sim 0 0 0 (cloud_of 1 1 2 3) false)) = (Ok obs, self') /\
     tl obs = [1; 2; 3] :: repeat [0; 0; 0] 79) /\
  (exists obs self',
     _get_state (fresh_env (fake_sim 0 0 0 (cloud_of 80 1 2 3) false)) = (Ok obs, self') /\
     tl obs = repeat [1; 2; 3] 80) /\
  (exists obs self',
     _get_state (fresh_env (fake_sim 0 0 0 (cloud_of 81 1 2 3) false)) = (Ok obs, self') /\
     tl obs = repeat [1; 2; 3] 80) /\
  (exists obs self',
     _get_state (fresh_env (fake_sim 0 0 0 (cloud_of 200 1 2 3) false)) = (Ok obs, self') /\
     tl obs = repeat [1; 2; 3] 80).
Proof.
  pose (run := fun n =>
    get_state_pad_or_truncate (fresh_env (fake_sim 0 0 0 (cloud_of n 1 2 3) false))
      {| airsim.kinematics_estimated :=
           {| airsim.position :=
                {| airsim.x_val := 0; airsim.y_val := 0; airsim.z_val := 0 |} |} |}
      (fake_sim 0 0 0 (cloud_of n 1 2 3) false)
      {| airsim.point_cloud := flatten (cloud_of n 1 2 3) |}
      (fake_sim 0 0 0 (cloud_of n 1 2 3) false)
      (cloud_of n 1 2 3) eq_refl eq_refl eq_refl).
  split; [|split; [|split; [|split]]].
  - destruct (run 0%nat) as (obs & self' & E & Hlt & _ & _).
    exists obs, self'. split; [exact E|]. apply Hlt. cbn. lia.
  - destruct (run 1%nat) as (obs & self' & E & Hlt & _ & _).
    exists obs, self'. split; [exact E|]. apply Hlt. cbn. lia.
  - destruct (run 80%nat) as (obs & self' & E & _ & _ & Heq).
    exists obs, self'. split; [exact E|]. apply Heq. reflexivity.
  - destruct (run 81%nat) as (obs & self' & E & _ & Hgt & _).
    exists obs, self'. split; [exact E|]. apply Hgt. cbn. lia.
  - destruct (run 200%nat) as (obs & self' & E & _ & Hgt & _).
    exists obs, self'. split; [exact E|]. apply Hgt. cbn. lia.
Defined.

(** The collision query on the stub. *)
Lemma crashed_query n :
  airsim.simGetCollisionInfo (client (running_env crashed n)) = (collided_info, crashed).
Proof. reflexivity. Qed.

Lemma flying_query n :
  airsim.simGetCollisionInfo (client (running_env flying n)) = (clear_info, flying).
Proof. reflexivity. Qed.

(** C4 on the tie of the specification: a collision, the counter at the
    step limit and the current distance below 1. *)
Lemma calculate_reward_priority_witness :
  fst (calculate_reward example_config 2 (1 / 2) empty_observation (running_env crashed 100))
    = Ok (REWARD_COLLISION example_config, true).
Proof.
  apply (proj2 (proj2 (calculate_reward_priority example_config (running_env crashed 100)
                         2 (1 / 2) empty_observation collided_info crashed
                         (crashed_query 100)))).
  - reflexivity.
  - lra.
  - exists 100%Z. split; [reflexivity | cbn; lia].
Defined.

(** C5 with the counter at the step limit and the distance at 1/2. *)
Lemma timeout_before_goal_witness :
  calculate_reward example_config 2 (1 / 2) empty_observation (running_env flying 100)
    = (Ok (REWARD_MAX_STEP_EXCEED example_config, true),
       terminal_env (running_env flying 100) flying DebugMaxStep).
Proof.
  apply (timeout_before_goal example_config (running_env flying 100)
           2 (1 / 2) empty_observation clear_info flying 100%Z).
  - reflexivity.
  - reflexivity.
  - reflexivity.
  - cbn. lia.
  - lra.
Defined.

(** C6 with the drone at (0, 0, 9), at distance 11 from the centre, and at
    (0, 0, 8), at distance 10, the safe radius of the example. *)
Lemma boundary_check_strict_witness :
  calculate_reward example_config 5 5 ([0; 0; 9] :: repeat [0; 0; 0] 80)
      (running_env flying 3)
    = (Ok (REWARD_OUT_OF_BOUNDS example_config, true),
       terminal_env (running_env flying 3) flying DebugOutOfBounds) /\
  exists reward self',
    calculate_reward example_config 5 5 ([0; 0; 8] :: repeat [0; 0; 0] 80)
        (running_env flying 3)
      = (Ok (reward, false), self').
Proof.
  split.
  - apply (proj1 (boundary_check_strict example_config (running_env flying 3) 5 5
                    ([0; 0; 9] :: repeat [0; 0; 0] 80) clear_info flying 3%Z
                    0 0 9 (repeat [0; 0; 0] 80)
                    (flying_query 3) eq_refl eq_refl eq_refl
                    (fun Hlt : 5 < 1 => Rlt_irrefl 5 (Rlt_trans 5 1 5 Hlt ltac:(lra)))
                    eq_refl)).
    rewrite euclidean_on_axis by lra.
    change (safe_bound (running_env flying 3)) with 10. lra.
  - apply (proj2 (proj2 (boundary_check_strict example_config (running_env flying 3) 5 5
                    ([0; 0; 8] :: repeat [0; 0; 0] 80) clear_info flying 3%Z
                    0 0 8 (repeat [0; 0; 0] 80)
                    (flying_query 3) eq_refl eq_refl eq_refl
                    (fun Hlt : 5 < 1 => Rlt_irrefl 5 (Rlt_trans 5 1 5 Hlt ltac:(lra)))
                    eq_refl))).
    rewrite euclidean_on_axis by lra.
    change (safe_bound (running_env flying 3)) with 10. lra.
Defined.

(** C7 with the distance going from 5 to 1. *)
Lemma shaping_reward_witness :
  calculate_reward example_config 5 1 empty_observation (running_env flying 3)
    = (Ok (REWARD_STEP example_config
           + REWARD_DISTANCE_GAIN example_config * Rpower (5 - 1) (3 / 2), false),
       continuing_env (running_env flying 3) flying
         (DebugApproach (REWARD_STEP example_config
            + REWARD_DISTANCE_GAIN example_config * Rpower (5 - 1) (3 / 2))) 3).
Proof.
  assert (Hin : euclidean (0, 0, 0) (0, 0, -2) <= safe_bound (running_env flying 3)).
  { rewrite euclidean_on_axis by lra.
    change (safe_bound (running_env flying 3)) with 10. lra. }
  apply (proj1 (shaping_reward example_config (running_env flying 3) empty_observation
                  clear_info flying 3%Z 0 0 0 (repeat [0; 0; 0] 80)
                  (flying_query 3) eq_refl eq_refl eq_refl eq_refl Hin)).
  - lra.
  - lra.
Defined.

(** C8 at the distance 1 and at the distance 1/2. *)
Lemma goal_threshold_witness :
  (exists out,
     stdout (snd (calculate_reward example_config 2 1 empty_observation
                    (running_env flying 3)))
       = stdout (running_env flying 3) ++ out /\
     ~ In DebugGoal out) /\
  calculate_reward example_config 2 (1 / 2) empty_observation (running_env flying 3)
    = (Ok (REWARD_GOAL example_config, true),
       terminal_env (running_env flying 3) flying DebugGoal).
Proof.
  split.
  - destruct (goal_threshold example_config (running_env flying 3) 2 1 empty_observation
                clear_info flying 3%Z (flying_query 3) eq_refl eq_refl eq_refl)
      as (out & Hout & _ & _ & Hone).
    exists out. split; [exact Hout | apply Hone; reflexivity].
  - destruct (goal_threshold example_config (running_env flying 3) 2 (1 / 2)
                empty_observation clear_info flying 3%Z (flying_query 3) eq_refl eq_refl eq_refl)
      as (out & _ & _ & Hgoal & _).
    apply Hgoal. lra.
Defined.

(** C9 on a reset in mid-flight, on a terminal step (after a collision)
    and on a step that is not terminal. *)
Lemma counters_reset_and_step_witness :
  (step_count (snd (reset (with_step_count 3 (running_env flying 7)))) = 0%Z /\
   step_in_episode (snd (reset (with_step_count 3 (running_env flying 7)))) = Some 0%Z) /\
  (exists self',
     step example_config [0; 0; 0; 0] (with_step_count 3 (running_env crashed 7)) =
       (Ok (empty_observation, REWARD_COLLISION example_config, true, tt), self') /\
     step_count self' = 4%Z /\ step_in_episode self' = Some 0%Z) /\
  (exists reward self',
     step example_config [0; 0; 0; 0] (running_env hovering_at_target 0) =
       (Ok (observation_at_target, reward, false, tt), self') /\
     step_count self' = 1%Z /\ step_in_episode self' = Some 1%Z).
Proof.
  split; [|split].
  - apply (proj1 (counters_reset_and_step example_config)).
  - destruct step_after_collision as (self' & E & Hcount).
    exists self'. split; [exact E|]. split; [exact Hcount|].
    destruct (proj2 (counters_reset_and_step example_config) _ _ _ _ _ _ E)
      as (_ & _ & Hdone).
    apply Hdone. reflexivity.
  - destruct step_at_target as (reward & self' & E).
    exists reward, self'. split; [exact E|].
    destruct (proj2 (counters_reset_and_step example_config) _ _ _ _ _ _ E)
      as (Hcount & Hgo & _).
    split; [exact Hcount|].
    destruct (Hgo eq_refl) as (n & Hn & Hn').
    injection Hn as <-. exact Hn'.
Defined.

(** C10 on the collision branch. *)
Lemma terminal_resets_step_in_episode_witness :
  step_in_episode (terminal_env (running_env crashed 5) crashed DebugCollision) = Some 0%Z.
Proof.
  apply (terminal_resets_step_in_episode example_config (running_env crashed 5)
           2 (1 / 2) empty_observation (REWARD_COLLISION example_config)).
  reflexivity.
Defined.

(* ================================================================== *)
(** ** Errors of the state query *)

Lemma mod_3_step n : ((3 + n) mod 3 = n mod 3)%nat.
Proof. replace (3 + n)%nat with (n + 1 * 3)%nat by lia. apply Nat.Div0.mod_add. Qed.

(** [reshape(-1, 3)] succeeds on the buffers whose size is a multiple of 3
    and raises ValueError on the others. *)
Lemma reshape_3_size a :
  match np.reshape_3 a with
  | Ok rows => (length a mod 3 = 0)%nat
  | Raise e => e = ValueError /\ (length a mod 3 <> 0)%nat
  end.
Proof.
  induction a as [a IH] using (well_founded_induction
    (Wf_nat.well_founded_ltof _ (@length R))).
  destruct a as [|x [|y [|z rest]]]; cbn [np.reshape_3].
  - reflexivity.
  - split; [reflexivity | discriminate].
  - split; [reflexivity | discriminate].
  - specialize (IH rest). unfold ltof in IH. cbn [length] in IH.
    specialize (IH ltac:(lia)).
    change (length (x :: y :: z :: rest)) with (3 + length rest)%nat.
    rewrite mod_3_step.
    destruct (np.reshape_3 rest) as [rows|e]; exact IH.
Qed.

Section StateQueryErrors.

Context {S : Type} `{airsim.MultirotorClient S}.

(** X1.  The state query raises ValueError exactly when the size of the
    LiDAR buffer is no multiple of 3: then nothing is printed and only the
    simulator has changed; on every other buffer it returns. *)
Theorem get_state_value_error_iff (self : AirSimDroneEnv S) ms c1 ld c2 :
  airsim.getMultirotorState (client self) = (ms, c1) ->
  airsim.getLidarData (lidar_name self) c1 = (ld, c2) ->
  ((length (airsim.point_cloud ld) mod 3 <> 0)%nat ->
     _get_state self = (Raise ValueError, with_client c2 self)) /\
  ((length (airsim.point_cloud ld) mod 3 = 0)%nat ->
     exists obs self', _get_state self = (Ok obs, self')).
Proof.
  intros Hms Hld.
  pose proof (reshape_3_size (airsim.point_cloud ld)) as Hsize.
  destruct (np.reshape_3 (airsim.point_cloud ld)) as [rows|e] eqn:Hre.
  - split; [intros Hbad; now elim Hbad|].
    intros _. rewrite (_get_state_run self ms c1 ld c2 rows Hms Hld Hre).
    eexists. eexists. reflexivity.
  - destruct Hsize as [-> Hbad]. split; [|intros Hgood; now elim Hbad].
    intros _. exact (_get_state_ragged_buffer self ms c1 ld c2 ValueError Hms Hld Hre).
Qed.

End StateQueryErrors.

(** X1 on the one-number buffer of a LiDAR without returns. *)
Lemma get_state_value_error_iff_witness :
  _get_state (fresh_env no_return) = (Raise ValueError, with_client no_return (fresh_env no_return)).
Proof.
  destruct (get_state_value_error_iff (fresh_env no_return)
              {| airsim.kinematics_estimated :=
                   {| airsim.position := fake_position no_return |} |}
              no_return {| airsim.point_cloud := [0] |} no_return)
    as [Hbad _]; [reflexivity | reflexivity |].
  apply Hbad. cbn. discriminate.
Defined.

(* ================================================================== *)
(** ** What a step does to the counters *)

Ltac run_methods :=
  unfold _get_state, calculate_reward, distance_to_target, terminal_env, continuing_env,
    bind, query, gets, get_step_in_episode, lift, print, modify, ret.

Lemma bind_raise_inv {S A B} (m : M S A) (k : A -> M S B) self e self'' :
  bind m k self = (Raise e, self'') ->
  m self = (Raise e, self'') \/
  exists a self', m self = (Ok a, self') /\ k a self' = (Raise e, self'').
Proof.
  unfold bind. destruct (m self) as [[a|e'] self'].
  - intros E. right. now exists a, self'.
  - intros E. left. injection E as -> ->. reflexivity.
Qed.

Lemma keeps_counters_refl {S} (self : AirSimDroneEnv S) : keeps_counters self self.
Proof. repeat split. Qed.

Lemma keeps_counters_trans {S} (a b c : AirSimDroneEnv S) :
  keeps_counters a b -> keeps_counters b c -> keeps_counters a c.
Proof. unfold keeps_counters. intros (? & ? & ?) (? & ? & ?). repeat split; congruence. Qed.

Section Counters.

Context {S : Type} `{airsim.MultirotorClient S}.
Variable config : Config.

Lemma _get_state_keeps (self : AirSimDroneEnv S) res self' :
  _get_state self = (res, self') -> keeps_counters self self'.
Proof.
  intros E. destruct (_get_state_frame self) as (Hc & He & _ & Hm).
  rewrite E in Hc, He, Hm. now repeat split.
Qed.

(** The reward function on its three kinds of outcome. *)
Lemma calculate_reward_outcome prev cur ns (self : AirSimDroneEnv S) res self' :
  calculate_reward config prev cur ns self = (res, self') ->
  step_count self' = step_count self /\
  max_steps self' = max_steps self /\
  match res with
  | Raise _ => step_in_episode self' = step_in_episode self
  | Ok (reward, true) =>
      step_in_episode self' = Some 0%Z /\
      (reward = REWARD_COLLISION config \/
       exists n, step_in_episode self = Some n /\
         (((max_steps self <= n)%Z /\ reward = REWARD_MAX_STEP_EXCEED config) \/
          ((n < max_steps self)%Z /\
           (reward = REWARD_GOAL config \/ reward = REWARD_OUT_OF_BOUNDS config))))
  | Ok (reward, false) =>
      exists n, step_in_episode self = Some n /\ (n < max_steps self)%Z /\
                step_in_episode self' = Some (n + 1)%Z
  end.
Proof.
  run_methods.
  destruct (airsim.simGetCollisionInfo (client self)) as [ci c1].
  destruct (airsim.has_collided ci); env_cbn.
  { intros E. injection E as <- <-. env_cbn. auto. }
  destruct (step_in_episode self) as [n|] eqn:Hn; env_cbn.
  2:{ intros E. injection E as <- <-. env_cbn. auto. }
  destruct (Z.leb_spec (max_steps self) n) as [Hmax|Hmax]; env_cbn.
  { intros E. injection E as <- <-. env_cbn. repeat split.
    right. exists n. split; [reflexivity|]. left. now split. }
  destruct (Rltb cur 1); env_cbn.
  { intros E. injection E as <- <-. env_cbn. repeat split.
    right. exists n. split; [reflexivity|]. right. split; [exact Hmax | now left]. }
  destruct ns as [|row rest]; cbn [np.item0].
  { intros E. injection E as <- <-. env_cbn. auto. }
  destruct (np.subtract row [0; 0; -2]) as [offset|e].
  2:{ intros E. injection E as <- <-. env_cbn. auto. }
  destruct (Rltb (safe_bound self) (np.linalg.norm offset)); env_cbn.
  { intros E. injection E as <- <-. env_cbn. repeat split.
    right. exists n. split; [reflexivity|]. right. split; [exact Hmax | now right]. }
  destruct (Rltb 0 (prev - cur)); env_cbn; rewrite Hn;
    intros E; injection E as <- <-; env_cbn; repeat split; exists n; repeat split; auto.
Qed.

(** What a returning [step] went through, with the observation it
    returns. *)
Lemma step_inv_observation action (self : AirSimDroneEnv S) obs reward done self' :
  step config action self = (Ok (obs, reward, done, tt), self') ->
  exists s1' s2 prev cur s3,
    keeps_counters self s1' /\
    _get_state s1' = (Ok obs, s2) /\
    calculate_reward config prev cur obs s2 = (Ok (reward, done), s3) /\
    self' = with_step_count (step_count s3 + 1) s3.
Proof.
  intros E. unfold step in E.
  apply bind_inv in E as (u & s0 & Hprint & E).
  injection Hprint as _ <-.
  apply bind_inv in E as (state & s1 & Hstate & E).
  apply bind_inv in E as ([[[vx vy] vz] yaw_rate] & s1a & Hunpack & E).
  destruct action as [|ax [|ay [|az [|ayaw [|extra action]]]]]; try discriminate.
  injection Hunpack as <- <- <- <- <-.
  apply bind_inv in E as (u' & s1' & Hmove & E).
  injection Hmove as _ <-.
  apply bind_inv in E as (new_state & s2 & Hnew & E).
  apply bind_inv in E as (prev & s2' & Hprev & E).
  pose proof (distance_to_target_frame state s2) as Hf1.
  rewrite Hprev in Hf1. cbn [snd] in Hf1. subst s2'.
  apply bind_inv in E as (cur & s2' & Hcur & E).
  pose proof (distance_to_target_frame new_state s2) as Hf2.
  rewrite Hcur in Hf2. cbn [snd] in Hf2. subst s2'.
  apply bind_inv in E as ([r d] & s3 & Hreward & E).
  unfold bind, gets, modify, ret in E. injection E as <- <- <- <-.
  eexists. exists s2, prev, cur, s3.
  split; [|split; [exact Hnew | split; [exact Hreward | reflexivity]]].
  apply _get_state_keeps in Hstate.
  apply (keeps_counters_trans _ s1); [exact Hstate | repeat split].
Qed.

(** A [step] that raises leaves the counters as they were. *)
Lemma step_raise_keeps action (self : AirSimDroneEnv S) e self' :
  step config action self = (Raise e, self') -> keeps_counters self self'.
Proof.
  intros E. unfold step in E.
  apply bind_raise_inv in E as [E | (u & s0 & Hprint & E)]; [discriminate|].
  injection Hprint as _ <-.
  apply bind_raise_inv in E as [E | (state & s1 & Hstate & E)].
  { apply _get_state_keeps in E. exact E. }
  apply _get_state_keeps in Hstate.
  assert (K1 : keeps_counters self s1) by exact Hstate.
  apply bind_raise_inv in E as [E | ([[[vx vy] vz] yaw_rate] & s1a & Hunpack & E)].
  { destruct action as [|ax [|ay [|az [|ayaw [|extra action]]]]];
      cbn [unpack4] in E; try discriminate; injection E as _ <-; exact K1. }
  destruct action as [|ax [|ay [|az [|ayaw [|extra action]]]]]; try discriminate.
  injection Hunpack as <- <- <- <- <-.
  apply bind_raise_inv in E as [E | (u' & s1' & Hmove & E)]; [discriminate|].
  injection Hmove as _ <-.
  apply bind_raise_inv in E as [E | (new_state & s2 & Hnew & E)].
  { apply _get_state_keeps in E.
    apply (keeps_counters_trans _ s1); [exact K1 | exact E]. }
  apply _get_state_keeps in Hnew.
  assert (K2 : keeps_counters self s2)
    by (apply (keeps_counters_trans _ s1); [exact K1 | exact Hnew]).
  apply bind_raise_inv in E as [E | (prev & s2' & Hprev & E)].
  { pose proof (distance_to_target_frame state s2) as Hf.
    rewrite E in Hf. cbn [snd] in Hf. now subst. }
  pose proof (distance_to_target_frame state s2) as Hf1.
  rewrite Hprev in Hf1. cbn [snd] in Hf1. subst s2'.
  apply bind_raise_inv in E as [E | (cur & s2' & Hcur & E)].
  { pose proof (distance_to_target_frame new_state s2) as Hf.
    rewrite E in Hf. cbn [snd] in Hf. now subst. }
  pose proof (distance_to_target_frame new_state s2) as Hf2.
  rewrite Hcur in Hf2. cbn [snd] in Hf2. subst s2'.
  apply bind_raise_inv in E as [E | ([r d] & s3 & Hreward & E)].
  { apply calculate_reward_outcome in E as (Hc & Hm & He).
    apply (keeps_counters_trans _ s2); [exact K2 | now repeat split]. }
  unfold bind, gets, modify, ret in E. discriminate.
Qed.

(** A returning step that does not end the episode. *)
Lemma step_continues action (self : AirSimDroneEnv S) obs reward self' :
  step config action self = (Ok (obs, reward, false, tt), self') ->
  exists n, step_in_episode self = Some n /\ (n < max_steps self)%Z /\
    step_in_episode self' = Some (n + 1)%Z /\
    step_count self' = (step_count self + 1)%Z /\
    max_steps self' = max_steps self.
Proof.
  intros E.
  apply step_inv_observation in E
    as (s1' & s2 & prev & cur & s3 & K1 & Hnew & Hreward & ->).
  apply _get_state_keeps in Hnew.
  destruct (keeps_counters_trans _ _ _ K1 Hnew) as (Kc & Ke & Km).
  apply calculate_reward_outcome in Hreward as (Hc & Hm & n & Hn & Hlt & Hn').
  exists n. env_cbn. repeat split; congruence.
Qed.

(** X2.  Every observation [reset] returns and every observation [step]
    returns has 81 rows of 3 columns. *)
Theorem observations_are_81_by_3 :
  (forall (self : AirSimDroneEnv S) obs self',
     reset self = (Ok obs, self') ->
     length obs = 81%nat /\ Forall (fun row => length row = 3%nat) obs) /\
  (forall action (self : AirSimDroneEnv S) obs reward done self',
     step config action self = (Ok (obs, reward, done, tt), self') ->
     length obs = 81%nat /\ Forall (fun row => length row = 3%nat) obs).
Proof.
  split.
  - intros self obs self' E. exact (reset_returns_81_by_3 self obs self' E).
  - intros action self obs reward done self' E.
    apply step_inv_observation in E as (s1' & s2 & _ & _ & _ & _ & Hnew & _).
    exact (_get_state_returns_81_by_3 s1' obs s2 Hnew).
Qed.

(** X3.  [__init__] does not assign the per-episode counter.  On a newly
    constructed environment the reward function raises AttributeError unless
    the simulator reports a collision, so a [step] made before the first
    [reset] returns only with the collision penalty, terminal. *)
Theorem step_before_reset (c : S) :
  (forall prev cur ns ci c1,
     airsim.simGetCollisionInfo (client (__init__ config c)) = (ci, c1) ->
     airsim.has_collided ci = false ->
     calculate_reward config prev cur ns (__init__ config c) =
       (Raise AttributeError, with_client c1 (__init__ config c))) /\
  (forall action obs reward done self',
     step config action (__init__ config c) = (Ok (obs, reward, done, tt), self') ->
     reward = REWARD_COLLISION config /\ done = true).
Proof.
  split.
  - intros prev cur ns ci c1 Hci Hcol.
    unfold calculate_reward, bind, query, get_step_in_episode.
    rewrite Hci. env_cbn. rewrite Hcol. reflexivity.
  - intros action obs reward done self' E.
    apply step_inv_observation in E
      as (s1' & s2 & prev & cur & s3 & K1 & Hnew & Hreward & _).
    apply _get_state_keeps in Hnew.
    destruct (keeps_counters_trans _ _ _ K1 Hnew) as (_ & Ke & _).
    cbn [__init__ step_in_episode] in Ke.
    apply calculate_reward_outcome in Hreward as (_ & _ & Hres).
    destruct done.
    + destruct Hres as (_ & [Hr | (n & Hn & _)]); [now split | congruence].
    + destruct Hres as (n & Hn & _). congruence.
Qed.

(** X4.  An action that does not have exactly four entries makes [step]
    raise ValueError once the first observation is taken: no velocity
    command reaches the simulator, and the environment is left as the first
    state query left it. *)
Theorem step_bad_action action (self : AirSimDroneEnv S) state s1 :
  length action <> 4%nat ->
  _get_state (with_stdout (stdout self ++ [DebugAction action]) self) = (Ok state, s1) ->
  step config action self = (Raise ValueError, s1).
Proof.
  intros Hlen Hstate. unfold step.
  rewrite (bind_ok _ _ self tt (with_stdout (stdout self ++ [DebugAction action]) self))
    by reflexivity.
  rewrite (bind_ok _ _ _ _ _ Hstate).
  apply bind_raise.
  destruct action as [|ax [|ay [|az [|ayaw [|extra action]]]]];
    try reflexivity.
  now elim Hlen.
Qed.

(** X5.  The counters keep an invariant: after every [reset], and after
    every [step] made from an environment where it holds, whether the step
    returns or raises, the per-episode counter is assigned and lies between
    0 and the lifetime counter. *)
Theorem counters_invariant :
  (forall self : AirSimDroneEnv S, counters_ok (snd (reset self))) /\
  (forall action (self : AirSimDroneEnv S),
     counters_ok self -> counters_ok (snd (step config action self))).
Proof.
  split.
  - intros self. destruct (reset_run self) as (s0 & Hc & He & ->).
    destruct (_get_state_frame s0) as (Fc & Fe & _).
    exists 0%Z.
    destruct (_get_state s0) as [[state|e] s1]; cbn [snd] in *;
      env_cbn; rewrite Fc, Fe, Hc, He; split; (reflexivity || lia).
  - intros action self (n & Hn & Hle).
    destruct (step config action self) as [[[[[obs reward] done] []]|e] self'] eqn:E;
      cbn [snd].
    + apply step_inv_observation in E
        as (s1' & s2 & prev & cur & s3 & K1 & Hnew & Hreward & ->).
      apply _get_state_keeps in Hnew.
      destruct (keeps_counters_trans _ _ _ K1 Hnew) as (Kc & Ke & _).
      apply calculate_reward_outcome in Hreward as (Hc & _ & Hres).
      unfold counters_ok. env_cbn.
      destruct done.
      * destruct Hres as (H0 & _). exists 0%Z. split; [exact H0 | lia].
      * destruct Hres as (m & Hm & _ & Hm').
        assert (m = n) by congruence. subst m.
        exists (n + 1)%Z. split; [exact Hm' | lia].
    + apply step_raise_keeps in E as (Kc & Ke & _).
      exists n. split; [congruence | lia].
Qed.

(** X6.  Once the per-episode counter has reached the step limit, a [step]
    that returns ends the episode: its reward is the collision penalty or
    the timeout penalty, and the counter is back at 0. *)
Theorem step_at_limit_is_terminal action (self : AirSimDroneEnv S) n
    obs reward done self' :
  step_in_episode self = Some n ->
  (max_steps self <= n)%Z ->
  step config action self = (Ok (obs, reward, done, tt), self') ->
  done = true /\
  (reward = REWARD_COLLISION config \/ reward = REWARD_MAX_STEP_EXCEED config) /\
  step_in_episode self' = Some 0%Z.
Proof.
  intros Hn Hmax E.
  apply step_inv_observation in E
    as (s1' & s2 & prev & cur & s3 & K1 & Hnew & Hreward & ->).
  apply _get_state_keeps in Hnew.
  destruct (keeps_counters_trans _ _ _ K1 Hnew) as (_ & Ke & Km).
  apply calculate_reward_outcome in Hreward as (_ & _ & Hres).
  rewrite Ke, Km in Hres. env_cbn.
  destruct done.
  - destruct Hres as (H0 & [Hr | (m & Hm & [[_ Hr] | [Hlt _]])]).
    + auto.
    + auto.
    + assert (m = n) by congruence. lia.
  - destruct Hres as (m & Hm & Hlt & _).
    assert (m = n) by congruence. lia.
Qed.

(** X7.  An episode is bounded by the step limit: [k] steps in a row that
    return without ending the episode raise both counters by [k], and when
    the per-episode counter started at [n], [n + k] does not exceed the
    limit.  After a [reset] that is at most [max_steps] such steps. *)
Theorem episode_length_bound (self : AirSimDroneEnv S) k self' n :
  continues config self k self' ->
  step_in_episode self = Some n ->
  step_in_episode self' = Some (n + Z.of_nat k)%Z /\
  step_count self' = (step_count self + Z.of_nat k)%Z /\
  ((0 < k)%nat -> (n + Z.of_nat k <= max_steps self)%Z).
Proof.
  intros Hrun. revert n.
  induction Hrun as [self | self action obs reward self' k self'' Hstep Hrun IH];
    intros n Hn.
  - cbn [Z.of_nat]. rewrite !Z.add_0_r. split; [exact Hn|]. split; [reflexivity | lia].
  - apply step_continues in Hstep as (m & Hm & Hlt & Hm' & Hc & Hmax).
    assert (m = n) by congruence. subst m.
    destruct (IH _ Hm') as (He & Hcount & Hbound).
    rewrite Hc in Hcount. rewrite Hmax in Hbound.
    split; [rewrite He; f_equal; lia|]. split; [lia|].
    intros _. destruct k as [|k]; [cbn; lia | lia].
Qed.

End Counters.

(* ================================================================== *)
(** ** What the reward function reads and writes *)

Lemma pow_1_5_increasing x y : 0 <= x -> x < y -> np.pow_1_5 x < np.pow_1_5 y.
Proof.
  intros Hx Hxy. unfold np.pow_1_5.
  assert (Hs : sqrt x < sqrt y) by (apply sqrt_lt_1_alt; lra).
  pose proof (sqrt_pos x). nra.
Qed.

Lemma pow_1_5_nonneg x : 0 <= x -> 0 <= np.pow_1_5 x.
Proof.
  intros Hx. unfold np.pow_1_5. pose proof (sqrt_pos x). nra.
Qed.

Section RewardFrame.

Context {S : Type} `{airsim.MultirotorClient S}.
Variable config : Config.

(** X8.  The reward function reads the observation through row 0 alone:
    two observations with the same drone row give the same result and the
    same environment, whatever their LiDAR rows are. *)
Theorem reward_reads_row_0_only prev cur row rest rest' (self : AirSimDroneEnv S) :
  calculate_reward config prev cur (row :: rest) self =
  calculate_reward config prev cur (row :: rest') self.
Proof.
  run_methods.
  destruct (airsim.simGetCollisionInfo (client self)) as [ci c1].
  destruct (airsim.has_collided ci); [reflexivity|].
  env_cbn. destruct (step_in_episode self) as [n|]; [|reflexivity].
  env_cbn. destruct (max_steps self <=? n)%Z; [reflexivity|].
  destruct (Rltb cur 1); reflexivity.
Qed.

(** X9.  The distance [step] computes from an observation is never below
    the Euclidean distance from the drone (row 0) to the target: a distance
    below 1 is handed to the reward function only when the drone is within
    1 of the target. *)
Theorem distance_to_target_lower_bound (self : AirSimDroneEnv S)
    a0 a1 a2 b0 b1 b2 c0 c1 c2 rest :
  exists d,
    distance_to_target ([a0; a1; a2] :: [b0; b1; b2] :: [c0; c1; c2] :: rest) self
      = (Ok d, self) /\
    euclidean (a0, a1, a2) (target_pos self) <= d /\
    (d < 1 -> euclidean (a0, a1, a2) (target_pos self) < 1).
Proof.
  eexists. split; [apply distance_to_target_three_rows|].
  pose proof (euclidean_nonneg (a0, a1, a2) (target_pos self)) as Ha.
  pose proof (Rle_0_sqr (euclidean (b0, b1, b2) (target_pos self))) as Hb.
  pose proof (Rle_0_sqr (euclidean (c0, c1, c2) (target_pos self))) as Hc.
  pose proof (Rle_0_sqr (euclidean (a0, a1, a2) (target_pos self))) as Haa.
  assert (Hle : euclidean (a0, a1, a2) (target_pos self)
                <= sqrt (Rsqr (euclidean (a0, a1, a2) (target_pos self))
                         + Rsqr (euclidean (b0, b1, b2) (target_pos self))
                         + Rsqr (euclidean (c0, c1, c2) (target_pos self)))).
  { rewrite <- (sqrt_Rsqr _ Ha) at 1. apply sqrt_le_1_alt. lra. }
  split; [exact Hle | intros Hd; lra].
Qed.

(** X10.  In the last branch, with a gain coefficient that is not negative
    and a loss coefficient that is not positive, the reward is at least the
    base reward when the distance shrank and at most the base reward when
    it did not; with a positive gain, a larger decrease of the distance
    gives a strictly larger reward. *)
Theorem shaping_sign_and_order (self : AirSimDroneEnv S) ns ci c1 n x y z rest prev cur :
  airsim.simGetCollisionInfo (client self) = (ci, c1) ->
  airsim.has_collided ci = false ->
  step_in_episode self = Some n ->
  (n < max_steps self)%Z ->
  ns = [x; y; z] :: rest ->
  euclidean (x, y, z) (0, 0, -2) <= safe_bound self ->
  ~ cur < 1 ->
  exists reward self',
    calculate_reward config prev cur ns self = (Ok (reward, false), self') /\
    (0 < prev - cur -> 0 <= REWARD_DISTANCE_GAIN config -> REWARD_STEP config <= reward) /\
    (prev - cur <= 0 -> REWARD_DISTANCE_LOSS config <= 0 -> reward <= REWARD_STEP config) /\
    (forall prev' cur' reward' self'',
       ~ cur' < 1 ->
       calculate_reward config prev' cur' ns self = (Ok (reward', false), self'') ->
       0 < prev - cur < prev' - cur' ->
       0 < REWARD_DISTANCE_GAIN config ->
       reward < reward').
Proof.
  intros Hci Hcol Hn Hmax Hns Hin Hcur.
  assert (Hrun := fun prev cur Hcur =>
    reward_shaping config self prev cur ns ci c1 n x y z rest Hci Hcol Hn Hmax Hcur Hns
      (Rle_not_lt _ _ Hin)).
  rewrite (Hrun prev cur Hcur).
  destruct (Rlt_dec 0 (prev - cur)) as [Hpos|Hneg].
  - eexists. eexists. split; [reflexivity|]. split; [|split].
    + intros _ Hg. pose proof (pow_1_5_nonneg (prev - cur)). nra.
    + intros Hle. lra.
    + intros prev' cur' reward' self'' Hcur' E [_ Hlt] Hg.
      rewrite (Hrun prev' cur' Hcur') in E.
      destruct (Rlt_dec 0 (prev' - cur')); [|lra].
      injection E as <- _.
      pose proof (pow_1_5_increasing (prev - cur) (prev' - cur')). nra.
  - eexists. eexists. split; [reflexivity|]. split; [|split].
    + intros Hpos. lra.
    + intros _ Hl. pose proof (pow_1_5_nonneg (Rabs (prev - cur)) (Rabs_pos _)). nra.
    + intros prev' cur' reward' self'' _ _ [Hpos _]. lra.
Qed.

(** X11.  Whatever it returns or raises, the reward function sends the
    simulator nothing but the collision query, leaves the lifetime counter,
    the target, the step limit and the safe radius alone, and prints at
    most one message. *)
Theorem calculate_reward_frame prev cur ns (self : AirSimDroneEnv S) :
  client (snd (calculate_reward config prev cur ns self))
    = snd (airsim.simGetCollisionInfo (client self)) /\
  step_count (snd (calculate_reward config prev cur ns self)) = step_count self /\
  target_pos (snd (calculate_reward config prev cur ns self)) = target_pos self /\
  max_steps (snd (calculate_reward config prev cur ns self)) = max_steps self /\
  safe_bound (snd (calculate_reward config prev cur ns self)) = safe_bound self /\
  exists out,
    stdout (snd (calculate_reward config prev cur ns self)) = stdout self ++ out /\
    (length out <= 1)%nat.
Proof.
  run_methods.
  destruct (airsim.simGetCollisionInfo (client self)) as [ci c1].
  destruct (airsim.has_collided ci); env_cbn.
  { repeat split. eexists. split; [reflexivity | cbn; lia]. }
  destruct (step_in_episode self) as [n|] eqn:Hn; env_cbn.
  2:{ repeat split. exists []. split; [now rewrite app_nil_r | cbn; lia]. }
  destruct (max_steps self <=? n)%Z; env_cbn.
  { repeat split. eexists. split; [reflexivity | cbn; lia]. }
  destruct (Rltb cur 1); env_cbn.
  { repeat split. eexists. split; [reflexivity | cbn; lia]. }
  destruct ns as [|row rest]; cbn [np.item0].
  { repeat split. exists []. split; [now rewrite app_nil_r | cbn; lia]. }
  destruct (np.subtract row [0; 0; -2]) as [offset|e].
  2:{ repeat split. exists []. split; [now rewrite app_nil_r | cbn; lia]. }
  destruct (Rltb (safe_bound self) (np.linalg.norm offset)); env_cbn.
  { repeat split. eexists. split; [reflexivity | cbn; lia]. }
  destruct (Rltb 0 (prev - cur)); env_cbn; rewrite Hn; env_cbn;
    (repeat split; eexists; split; [reflexivity | cbn; lia]).
Qed.

End RewardFrame.

(* ================================================================== *)
(** ** The further theorems at concrete inputs *)

(** The stub with the counter at the step limit: the step times out. *)
Lemma step_at_limit :
  exists self',
    step example_config [0; 0; 0; 0] (running_env flying 100) =
      (Ok (empty_observation, REWARD_MAX_STEP_EXCEED example_config, true, tt), self').
Proof.
  destruct (fake_step_hover example_config (running_env flying 100)
              0 0 0 [] false 0 0 0 0 0 0 (repeat [0; 0; 0] 78)
              eq_refl eq_refl)
    as (s2 & Hclient & Hn & Hmax & _ & _ & Hstep).
  eexists. apply Hstep.
  apply reward_max_step with (ci := clear_info) (n := 100%Z).
  - rewrite Hclient. reflexivity.
  - reflexivity.
  - rewrite Hn. reflexivity.
  - rewrite Hmax. cbn. lia.
Qed.

(** X2 on the step of the stub hovering on the target. *)
Lemma observations_are_81_by_3_witness :
  length observation_at_target = 81%nat /\
  Forall (fun row => length row = 3%nat) observation_at_target.
Proof.
  destruct step_at_target as (reward & self' & E).
  exact (proj2 (observations_are_81_by_3 example_config) _ _ _ _ _ _ E).
Defined.

(** X3 on the stub in free flight, before any reset. *)
Lemma step_before_reset_witness :
  calculate_reward example_config 5 5 empty_observation (fresh_env flying) =
    (Raise AttributeError, with_client flying (fresh_env flying)).
Proof.
  apply (proj1 (step_before_reset example_config flying)) with (ci := clear_info);
    reflexivity.
Defined.

(** X4 on an action of three entries. *)
Lemma step_bad_action_witness :
  step example_config [1; 2; 3] (running_env flying 0) =
    (Raise ValueError,
     with_stdout ([DebugAction [1; 2; 3]] ++ [DebugLidarCount 0])
       (with_client flying
          (with_stdout ([] ++ [DebugAction [1; 2; 3]]) (running_env flying 0)))).
Proof.
  apply (step_bad_action example_config [1; 2; 3] (running_env flying 0)
           (repeat [0; 0; 0] 81)).
  - cbn. lia.
  - exact (fake_get_state
             (with_stdout ([] ++ [DebugAction [1; 2; 3]]) (running_env flying 0))
             0 0 0 [] false eq_refl).
Defined.

(** X5 on a step made right after a reset. *)
Lemma counters_invariant_witness :
  counters_ok (snd (step example_config [0; 0; 0; 0] (snd (reset (fresh_env flying))))).
Proof.
  apply (proj2 (counters_invariant example_config)).
  apply (proj1 (counters_invariant example_config)).
Defined.

(** X6 on the stub with the counter at the step limit. *)
Lemma step_at_limit_is_terminal_witness :
  exists self',
    step example_config [0; 0; 0; 0] (running_env flying 100) =
      (Ok (empty_observation, REWARD_MAX_STEP_EXCEED example_config, true, tt), self') /\
    step_in_episode self' = Some 0%Z.
Proof.
  destruct step_at_limit as (self' & E).
  exists self'. split; [exact E|].
  apply (step_at_limit_is_terminal example_config [0; 0; 0; 0] (running_env flying 100)
           100%Z _ _ _ _ eq_refl ltac:(cbn; lia) E).
Defined.

(** X7 on one step of the stub hovering on the target. *)
Lemma episode_length_bound_witness :
  exists self',
    continues example_config (running_env hovering_at_target 0) 1 self' /\
    step_in_episode self' = Some 1%Z /\
    step_count self' = 1%Z.
Proof.
  destruct step_at_target as (reward & self' & E).
  assert (Hrun : continues example_config (running_env hovering_at_target 0) 1 self')
    by (exact (continues_step example_config _ _ _ _ _ _ _ E
                 (continues_nil example_config self'))).
  exists self'. split; [exact Hrun|].
  destruct (episode_length_bound example_config _ _ _ 0%Z Hrun eq_refl) as (He & Hc & _).
  split; [exact He | exact Hc].
Defined.

(** X10 with the distance going from 5 to 1. *)
Lemma shaping_sign_and_order_witness :
  exists reward self',
    calculate_reward example_config 5 1 empty_observation (running_env flying 3)
      = (Ok (reward, false), self') /\
    REWARD_STEP example_config <= reward.
Proof.
  assert (Hin : euclidean (0, 0, 0) (0, 0, -2) <= safe_bound (running_env flying 3)).
  { rewrite euclidean_on_axis by lra.
    change (safe_bound (running_env flying 3)) with 10. lra. }
  destruct (shaping_sign_and_order example_config (running_env flying 3) empty_observation
              clear_info flying 3%Z 0 0 0 (repeat [0; 0; 0] 80) 5 1
              (flying_query 3) eq_refl eq_refl eq_refl eq_refl Hin ltac:(lra))
    as (reward & self' & E & Hup & _).
  exists reward, self'. split; [exact E|].
  apply Hup; [lra | cbn; lra].
Defined.

(* ================================================================== *)
(** ** What a step does not depend on *)

Section Related.

Context {S : Type}.

Lemma related_ret {A B} (RR : A -> B -> Prop) x y :
  RR x y -> related (S := S) RR (ret x) (ret y).
Proof. intros Hxy a b E. cbn. auto. Qed.

Lemma related_bind {A1 A2 B1 B2} (RA : A1 -> A2 -> Prop) (RB : B1 -> B2 -> Prop)
    (m1 : M S A1) (m2 : M S A2) k1 k2 :
  related RA m1 m2 ->
  (forall x y, RA x y -> related RB (k1 x) (k2 y)) ->
  related RB (bind m1 k1) (bind m2 k2).
Proof.
  intros Hm Hk a b E. specialize (Hm a b E). unfold bind.
  destruct (m1 a) as [[x|e1] a'], (m2 b) as [[y|e2] b']; try contradiction.
  - destruct Hm as [Hxy E']. exact (Hk x y Hxy a' b' E').
  - exact Hm.
Qed.

Lemma related_lift {A} (r : result A) : related (S := S) eq (lift r) (lift r).
Proof. intros a b E. unfold lift. destruct r; auto. Qed.

Lemma related_query {A} (f : S -> A * S) : related eq (query f) (query f).
Proof.
  intros a b E. unfold query. destruct E as (Hc & E). rewrite <- Hc.
  destruct (f (client a)) as [x c]. split; [reflexivity|].
  unfold same_but_stdout. env_cbn. cbn [lidar_name lidar_data_log]. tauto.
Qed.

Lemma related_call (f : S -> S) : related eq (call f) (call f).
Proof.
  intros a b E. unfold call. destruct E as (Hc & E). rewrite <- Hc.
  split; [reflexivity|].
  unfold same_but_stdout. env_cbn. cbn [lidar_name lidar_data_log]. tauto.
Qed.

Lemma related_gets {A} (f : AirSimDroneEnv S -> A) :
  (forall a b, same_but_stdout a b -> f a = f b) ->
  related eq (gets f) (gets f).
Proof. intros Hf a b E. unfold gets. auto. Qed.

Lemma related_get_step_in_episode :
  related (S := S) eq get_step_in_episode get_step_in_episode.
Proof.
  intros a b E. unfold get_step_in_episode.
  assert (He : step_in_episode a = step_in_episode b) by (unfold same_but_stdout in E; tauto).
  rewrite <- He. destruct (step_in_episode a); auto.
Qed.

Lemma related_print (msg1 msg2 : LogMsg) :
  related (S := S) (fun _ _ => True) (print msg1) (print msg2).
Proof.
  intros a b E. unfold print, modify. split; [exact I|].
  unfold same_but_stdout in *. env_cbn. cbn [lidar_name lidar_data_log]. tauto.
Qed.

Lemma related_with_step_in_episode (n : Z) :
  related (S := S) (fun _ _ => True)
    (modify (with_step_in_episode n)) (modify (with_step_in_episode n)).
Proof.
  intros a b E. unfold modify. split; [exact I|].
  unfold same_but_stdout in *. env_cbn. cbn [lidar_name lidar_data_log]. tauto.
Qed.

Lemma related_with_step_count (n : Z) :
  related (S := S) (fun _ _ => True)
    (modify (with_step_count n)) (modify (with_step_count n)).
Proof.
  intros a b E. unfold modify. split; [exact I|].
  unfold same_but_stdout in *. env_cbn. cbn [lidar_name lidar_data_log]. tauto.
Qed.

End Related.

Ltac related_field :=
  apply related_gets; unfold same_but_stdout; intros ? ? ?; tauto.

Ltac related_next :=
  eapply related_bind;
  [ first [ apply related_query | apply related_call | apply related_print
          | apply related_lift | apply related_get_step_in_episode
          | apply related_with_step_in_episode | apply related_with_step_count
          | related_field ]
  | cbv beta; intros ? ? ?; subst ].

Section Independence.

Context {S : Type} `{airsim.MultirotorClient S}.
Variable config : Config.

Lemma _get_state_related : related (S := S) eq _get_state _get_state.
Proof.
  unfold _get_state. do 5 related_next. now apply related_ret.
Qed.

Lemma distance_to_target_related state :
  related (S := S) eq (distance_to_target state) (distance_to_target state).
Proof.
  unfold distance_to_target. do 2 related_next. now apply related_ret.
Qed.

Lemma calculate_reward_related prev cur ns :
  related (S := S) eq (calculate_reward config prev cur ns)
    (calculate_reward config prev cur ns).
Proof.
  unfold calculate_reward. related_next.
  match goal with |- context [airsim.has_collided ?ci] =>
    destruct (airsim.has_collided ci) end.
  { do 2 related_next. now apply related_ret. }
  do 2 related_next.
  match goal with |- context [(?l <=? ?n)%Z] => destruct (l <=? n)%Z end.
  { do 2 related_next. now apply related_ret. }
  destruct (Rltb cur 1).
  { do 2 related_next. now apply related_ret. }
  do 3 related_next.
  match goal with |- context [Rltb ?b ?d] => destruct (Rltb b d) end.
  { do 2 related_next. now apply related_ret. }
  eapply related_bind with (RA := eq).
  { destruct (Rltb 0 (prev - cur)); related_next; now apply related_ret. }
  intros ? ? ->. do 2 related_next. now apply related_ret.
Qed.

(** X12.  The yaw rate of an action is never used: two steps from the same
    environment whose actions differ in the yaw rate alone return the same
    observation, reward and terminal flag, or raise the same exception, and
    leave environments that differ at most in the printed action. *)
Theorem step_ignores_yaw_rate vx vy vz yaw_rate yaw_rate' (self : AirSimDroneEnv S) :
  fst (step config [vx; vy; vz; yaw_rate] self)
    = fst (step config [vx; vy; vz; yaw_rate'] self) /\
  same_but_stdout (snd (step config [vx; vy; vz; yaw_rate] self))
                  (snd (step config [vx; vy; vz; yaw_rate'] self)).
Proof.
  assert (Hrel : related (S := S) eq (step config [vx; vy; vz; yaw_rate])
                                     (step config [vx; vy; vz; yaw_rate'])).
  { unfold step. related_next.
    eapply related_bind; [apply _get_state_related|]. intros ? state ->.
    cbn [unpack4].
    eapply related_bind with (RA := fun v v' => fst v = fst v').
    { now apply related_ret. }
    intros [[[ux uy] uz] uw] [[[ux' uy'] uz'] uw'] E.
    cbn [fst] in E. injection E as <- <- <-.
    related_next.
    eapply related_bind; [apply _get_state_related|]. intros ? new_state ->.
    eapply related_bind; [apply distance_to_target_related|]. intros ? prev ->.
    eapply related_bind; [apply distance_to_target_related|]. intros ? cur ->.
    eapply related_bind; [apply calculate_reward_related|]. intros ? [reward done] ->.
    do 2 related_next. now apply related_ret. }
  assert (Hself : same_but_stdout self self) by (unfold same_but_stdout; tauto).
  specialize (Hrel self self Hself).
  destruct (step config [vx; vy; vz; yaw_rate] self) as [[r|e] a],
           (step config [vx; vy; vz; yaw_rate'] self) as [[r'|e'] b];
    try contradiction; destruct Hrel as [-> E]; auto.
Qed.

End Independence.
